(** * shell_gpt: role registry, stdin prompt extraction, shell executor and
      the shell action loop

    A shallow embedding of [sgpt/role.py], [sgpt/utils.py] and the body of
    [main] in [sgpt/app.py].

    Python [str] values are sequences of Unicode code points and are modelled
    as [list N].  Literals are written [py "..."], which decodes the UTF-8
    bytes of the Rocq literal.  The role directory is a finite map from file
    names to the JSON object stored in each file.  Effects (the role
    directory, answers typed at the terminal, the piped standard input, the
    calls that leave the program) are threaded through a state-and-exception
    monad. *)

From Stdlib Require Import String Ascii NArith List Bool Lia PrimFloat.
From Stdlib Require Import ZArith Sorted Permutation.
From stdpp Require Import base option list gmap.

Local Open Scope N_scope.

(** ** Python strings *)

Module Str.

Abbreviation str := (list N).

Fixpoint utf8_decode (bs : list N) : str :=
  match bs with
  | [] => []
  | b0 :: r0 =>
    if b0 <? 128 then b0 :: utf8_decode r0
    else
      match r0 with
      | [] => []
      | b1 :: r1 =>
        if b0 <? 224 then ((b0 - 192) * 64 + (b1 - 128)) :: utf8_decode r1
        else
          match r1 with
          | [] => []
          | b2 :: r2 =>
            if b0 <? 240
            then (((b0 - 224) * 64 + (b1 - 128)) * 64 + (b2 - 128))
                   :: utf8_decode r2
            else
              match r2 with
              | [] => []
              | b3 :: r3 =>
                ((((b0 - 240) * 64 + (b1 - 128)) * 64 + (b2 - 128)) * 64
                 + (b3 - 128)) :: utf8_decode r3
              end
          end
      end
  end.

(** [py "text"] is the Python string written [text]. *)
Definition py (s : string) : str :=
  utf8_decode (map N_of_ascii (list_ascii_of_string s)).
Arguments py s%_string.

(** The characters that cannot be typed inside a literal here. *)
Definition dquote : str := [34].
Definition squote : str := [39].

(** [bool(s)]: a string is truthy when it is not empty. *)
Definition truthy (s : str) : bool :=
  match s with [] => false | _ :: _ => true end.

(** [bool(o)] for an optional string argument ([None] or a string). *)
Definition truthy_opt (o : option str) : bool :=
  match o with None => false | Some s => truthy s end.

Definition str_eqb (a b : str) : bool := bool_decide (a = b).

(** [s.startswith(sub)] *)
Fixpoint starts_with (sub s : str) : bool :=
  match sub, s with
  | [], _ => true
  | _ :: _, [] => false
  | a :: sub', b :: s' => (a =? b) && starts_with sub' s'
  end.

(** [sub in s] *)
Fixpoint contains (sub s : str) : bool :=
  starts_with sub s
  || match s with
     | [] => false
     | _ :: s' => contains sub s'
     end.

(** [s.split(sep)] for a non-empty separator: scan from the left, cut at
    each occurrence, resume after it.  [skip] counts the characters of the
    separator that was just matched and are still to be passed over. *)
Fixpoint split_from (sep : str) (skip : nat) (cur s : str) : list str :=
  match s with
  | [] => [cur]
  | c :: s' =>
    match skip with
    | S k => split_from sep k cur s'
    | O =>
      if starts_with sep s
      then cur :: split_from sep (Nat.pred (length sep)) [] s'
      else split_from sep O (cur ++ [c]) s'
    end
  end.

Definition split (sep s : str) : list str := split_from sep O [] s.

(** Line boundaries of [str.splitlines]: LF, VT, FF, CR, FS, GS, RS, NEL,
    LINE SEPARATOR, PARAGRAPH SEPARATOR (and CR LF as one boundary). *)
Definition is_linebreak (c : N) : bool :=
  (c =? 10) || (c =? 11) || (c =? 12) || (c =? 13) || (c =? 28) || (c =? 29)
  || (c =? 30) || (c =? 133) || (c =? 8232) || (c =? 8233).

Fixpoint splitlines_from (cur s : str) : list str :=
  match s with
  | [] => match cur with [] => [] | _ :: _ => [cur] end
  | c :: s' =>
    if is_linebreak c then
      cur :: match s' with
             | d :: s'' =>
               if (c =? 13) && (d =? 10) then splitlines_from [] s''
               else splitlines_from [] s'
             | [] => splitlines_from [] s'
             end
    else splitlines_from (cur ++ [c]) s'
  end.

(** [s.splitlines()] *)
Definition splitlines (s : str) : list str := splitlines_from [] s.

(** [c.isspace()] *)
Definition is_space (c : N) : bool :=
  ((9 <=? c) && (c <=? 13)) || ((28 <=? c) && (c <=? 32)) || (c =? 133)
  || (c =? 160) || (c =? 5760) || ((8192 <=? c) && (c <=? 8202))
  || (c =? 8232) || (c =? 8233) || (c =? 8239) || (c =? 8287)
  || (c =? 12288).

Fixpoint lstrip (s : str) : str :=
  match s with
  | [] => []
  | c :: s' => if is_space c then lstrip s' else s
  end.

(** [s.strip()] *)
Definition strip (s : str) : str := rev (lstrip (rev (lstrip s))).

(** Lines of a text stream as file iteration yields them: each line keeps
    its terminating newline, the last one may lack it. *)
Fixpoint iter_lines_from (cur s : str) : list str :=
  match s with
  | [] => match cur with [] => [] | _ :: _ => [cur] end
  | c :: s' =>
    if c =? 10 then (cur ++ [c]) :: iter_lines_from [] s'
    else iter_lines_from (cur ++ [c]) s'
  end.

Definition iter_lines (s : str) : list str := iter_lines_from [] s.

(** [posixpath.basename]: what follows the last slash. *)
Fixpoint basename_from (cur s : str) : str :=
  match s with
  | [] => cur
  | c :: s' => if c =? 47 then basename_from [] s' else basename_from (cur ++ [c]) s'
  end.

Definition basename (p : str) : str := basename_from [] p.

End Str.
Import Str.

(** ** Exceptions, the world and the monad *)

Inductive exn :=
| BadArgumentUsage (msg : str)
| BadParameter (msg : str)
| Abort
| Exit
| FileNotFoundError (path : str)
| IndexError
| KeyError (key : str)
| ValueError
| RuntimeError (msg : str)
| OSError (errno : N).

Inductive res (A : Type) :=
| Ret (a : A)
| Raise (e : exn).
Arguments Ret {A} a.
Arguments Raise {A} e.

(** A [SystemRole] object; [json.dumps(self.__dict__)] stores the same two
    fields, so a role file holds one such record. *)
Record SystemRole := { name : str; role : str }.

Inductive handler :=
| DefaultHandler
| ChatHandler (chat_id : str)
| ReplHandler (chat_id : str).

(** One call of a handler's [handle]: who is asked, under which role, and
    the keyword arguments. *)
Record request := {
  via : handler;
  persona : SystemRole;
  markdown : bool;
  req_prompt : str;
  req_model : str;
  req_temperature : float;
  req_top_p : float;
  req_caching : bool;
  req_functions : option (list str)
}.

(** What leaves the program. *)
Inductive event :=
| Confirm (text : str)
| Prompt (text : str)
| Echo (text : str)
| Completion (req : request)
| System (command : str).

Record world := {
  storage : gmap str SystemRole;  (* files of ROLE_STORAGE_PATH, by file name *)
  confirms : list bool;           (* answers to come to [typer.confirm] *)
  texts : list str;               (* answers to come to a text [typer.prompt] *)
  pipe : str;                     (* what piped standard input still holds *)
  trace : list event
}.

Definition M (A : Type) : Type := world -> res A * world.

Definition ret {A} (a : A) : M A := fun w => (Ret a, w).
Definition raise {A} (e : exn) : M A := fun w => (Raise e, w).
Definition bind {A B} (m : M A) (k : A -> M B) : M B :=
  fun w =>
    match m w with
    | (Ret a, w') => k a w'
    | (Raise e, w') => (Raise e, w')
    end.

Notation "x <- c1 ;; c2" := (bind c1 (fun x => c2))
  (at level 100, c1 at next level, right associativity).
Notation "c1 ;;; c2" := (bind c1 (fun _ => c2))
  (at level 100, right associativity).

Definition set_storage (f : gmap str SystemRole -> gmap str SystemRole) (w : world) : world :=
  {| storage := f (storage w); confirms := confirms w; texts := texts w;
     pipe := pipe w; trace := trace w |}.

Definition emit (e : event) : M unit :=
  fun w => (Ret tt,
            {| storage := storage w; confirms := confirms w; texts := texts w;
               pipe := pipe w; trace := trace w ++ [e] |}).

(** [typer.confirm(text, abort=True)]: a refusal, or the end of the input,
    raises [Abort]. *)
Definition typer_confirm_abort (text : str) : M bool :=
  emit (Confirm text) ;;;
  fun w =>
    match confirms w with
    | true :: rest =>
      (Ret true, {| storage := storage w; confirms := rest; texts := texts w;
                    pipe := pipe w; trace := trace w |})
    | false :: rest =>
      (Raise Abort, {| storage := storage w; confirms := rest; texts := texts w;
                       pipe := pipe w; trace := trace w |})
    | [] => (Raise Abort, w)
    end.

(** [typer.prompt(text)] for a string: the end of the input raises [Abort]. *)
Definition typer_prompt (text : str) : M str :=
  emit (Prompt text) ;;;
  fun w =>
    match texts w with
    | t :: rest =>
      (Ret t, {| storage := storage w; confirms := confirms w; texts := rest;
                 pipe := pipe w; trace := trace w |})
    | [] => (Raise Abort, w)
    end.

(** ** [str.format] with keyword arguments

    Literal text, the escapes for the two braces, and replacement fields
    that name a keyword.  A field with a conversion, a format spec, an
    attribute or an index is answered [ValueError]: no template of this
    program has one. *)

Definition prepend (p : str) (r : res str) : res str :=
  match r with
  | Ret s => Ret (p ++ s)
  | Raise e => Raise e
  end.

Fixpoint kwarg (k : str) (kw : list (str * str)) : option str :=
  match kw with
  | [] => None
  | (k', v) :: kw' => if str_eqb k k' then Some v else kwarg k kw'
  end.

Definition is_digit (c : N) : bool := (48 <=? c) && (c <=? 57).

Definition field_special (c : N) : bool :=
  (c =? 123) || (c =? 33) || (c =? 58) || (c =? 46) || (c =? 91).

Fixpoint format_from (kw : list (str * str)) (field : option str) (s : str) : res str :=
  match s with
  | [] =>
    match field with
    | None => Ret []
    | Some _ => Raise ValueError
    end
  | c :: s' =>
    match field with
    | Some fname =>
      if c =? 125 then
        if forallb is_digit fname then Raise IndexError
        else
          match kwarg fname kw with
          | Some v => prepend v (format_from kw None s')
          | None => Raise (KeyError fname)
          end
      else if field_special c then Raise ValueError
      else format_from kw (Some (fname ++ [c])) s'
    | None =>
      if c =? 123 then
        match s' with
        | d :: s'' =>
          if d =? 123 then prepend [123] (format_from kw None s'')
          else format_from kw (Some []) s'
        | [] => format_from kw (Some []) s'
        end
      else if c =? 125 then
        match s' with
        | d :: s'' =>
          if d =? 125 then prepend [125] (format_from kw None s'')
          else Raise ValueError
        | [] => Raise ValueError
        end
      else prepend [c] (format_from kw None s')
    end
  end.

Definition format (template : str) (kw : list (str * str)) : res str :=
  format_from kw None template.

(** ** The host: configuration, platform and environment *)

Record host := {
  cfg_OS_NAME : str;
  cfg_SHELL_NAME : str;
  platform_system : str;
  distro_name_pretty : str;
  platform_release : str;
  platform_mac_ver : str;
  environ : gmap str str;
  pathsep : str;
  stdin_isatty : bool;
  openai_schemas : list str;  (* what [get_openai_schemas()] finds *)
  tmp_file : str;             (* the name [NamedTemporaryFile] picks *)
  edited_text : str           (* what that file holds once the editor closes *)
}.

(** [os.getenv(key, default)] *)
Definition getenv (h : host) (key default : str) : str :=
  match environ h !! key with
  | Some v => v
  | None => default
  end.

(** ** sgpt/role.py *)

Definition SHELL_ROLE : str := py "
仅提供 {os} 的 {shell} 命令，不包含任何描述。 
如果细节不足，请提供最合理的解决方案。 
确保输出是有效的 shell 命令。 
如果需要多个步骤，请尝试使用 && 将它们组合在一起。 
仅提供纯文本，不使用 Markdown 格式。
".

Definition DESCRIBE_SHELL_ROLE : str := py "
提供给定 shell 命令的简洁单句描述。 
描述命令的每个参数和选项。 
用大约 80 个词提供简短的回答。 
尽可能使用 Markdown 格式。
".

Definition CODE_ROLE : str :=
  py "
返回结果仅包含代码，没有任何描述。
以纯文本格式提供代码，不使用 Markdown 格式。
不允许包含如 ``` 或 ```python 等符号.
如果细节不足，请提供最合理的解决方案。
不允许要求提供更多详情。
例如，如果提示是 " ++ dquote ++ py "Hello world Python" ++ dquote
  ++ py "，你应该返回 " ++ dquote ++ py "print('Hello world')" ++ dquote ++ py "。
".

Definition DEFAULT_ROLE : str := py "
你是编程和系统管理助手。 
你正在使用 {shell} shell 管理 {os} 操作系统。 
除非特别要求提供更多详情，否则请用大约 100 个词提供简短回答。 
如果需要存储任何数据，请假设数据将存储在对话中。 
尽可能使用 Markdown 格式。
".

Definition ROLE_TEMPLATE : str := py "你是YiboLiu设计并改进的ShellGPT".

(** The template the source keeps in a comment above [ROLE_TEMPLATE]. *)
Definition ROLE_TEMPLATE_commented_out : str :=
  py "You are {name}" ++ [10] ++ py "{role}".

(** ** Role names as file names

    The file of a role is [storage / f"{name}.json"], a path of pathlib, and
    the name is whatever the user typed.  For a plain file name the path is
    the entry [name.json] of the storage directory and nothing else: the
    name holds no separator, so pathlib keeps it as one component; it holds
    no NUL and no surrogate code point, so it has one UTF-8 encoding and the
    system calls accept it; and [name.json] is no longer than the file
    system allows.  The file system is taken to be a POSIX one that compares
    names byte for byte and allows NAME_MAX = 255 bytes to a component, as
    on Linux, with a storage directory that exists (importing role.py
    creates it) and whose own path leaves room for one more component. *)
Module FileName.

Definition NAME_MAX : nat := 255.

(** Bytes of a code point in UTF-8. *)
Definition utf8_size (c : N) : nat :=
  if c <? 128 then 1%nat
  else if c <? 2048 then 2%nat
  else if c <? 65536 then 3%nat
  else 4%nat.

Definition size (s : str) : nat :=
  fold_right (fun c k => (utf8_size c + k)%nat) 0%nat s.

Definition is_surrogate (c : N) : bool := (55296 <=? c) && (c <=? 57343).

(** A code point of a Python string that is not NUL, not the separator and
    not a surrogate. *)
Definition plain_char (c : N) : bool :=
  negb (c =? 0) && negb (c =? 47) && negb (is_surrogate c) && (c <=? 1114111).

Definition fits (entry : str) : bool := (size entry <=? NAME_MAX)%nat.

Definition plain (n : str) : bool :=
  forallb plain_char n && fits (n ++ py ".json").

End FileName.

(** The functions of this module take the path of a role to be the entry
    [name.json] of the storage directory, which is what it is for a plain
    file name ([FileName.plain]); [Pathlib], after it, has [get] and
    [delete] with the path as pathlib and the file system treat it. *)
Module Role.

Inductive DefaultRoles := DEFAULT | SHELL | DESCRIBE_SHELL | CODE.

Definition value (r : DefaultRoles) : str :=
  match r with
  | DEFAULT => py "ShellGPT"
  | SHELL => py "Shell Command Generator"
  | DESCRIBE_SHELL => py "Shell Command Descriptor"
  | CODE => py "Code Generator"
  end.

(** [_file_path], relative to the storage directory. *)
Definition _file_path (n : str) : str := n ++ py ".json".

(** [SystemRole.__init__].  [if variables:] skips [None] and the empty
    dictionary alike.  The [mkdir] of the storage directory, here and in
    [create_defaults], has no counterpart: the world keeps the files of the
    directory, not the directory. *)
Definition init (n r : str) (variables : option (list (str * str))) : M SystemRole :=
  match variables with
  | Some ((_ :: _) as kw) =>
    match format r kw with
    | Ret r' => ret {| name := n; role := r' |}
    | Raise e => raise e
    end
  | _ => ret {| name := n; role := r |}
  end.

Definition _exists (self : SystemRole) : M bool :=
  fun w =>
    (Ret match storage w !! _file_path (name self) with
         | Some _ => true
         | None => false
         end, w).

Definition write_text (path : str) (content : SystemRole) : M unit :=
  fun w => (Ret tt, set_storage (insert path content) w).

(** [Path.unlink()] *)
Definition unlink (path : str) : M unit :=
  fun w =>
    match storage w !! path with
    | Some _ => (Ret tt, set_storage (base.delete path) w)
    | None => (Raise (FileNotFoundError path), w)
    end.

(** [_save] with the template as a parameter. *)
Definition _save_with (template : str) (self : SystemRole) : M unit :=
  ex <- _exists self ;;
  (if ex
   then typer_confirm_abort
          (py "Role " ++ dquote ++ name self ++ dquote ++ py " already exists, overwrite it?")
        ;;; ret tt
   else ret tt) ;;;
  match format template [(py "name", name self); (py "role", role self)] with
  | Ret r' => write_text (_file_path (name self)) {| name := name self; role := r' |}
  | Raise e => raise e
  end.

Definition _save : SystemRole -> M unit := _save_with ROLE_TEMPLATE.

Definition delete (self : SystemRole) : M unit :=
  ex <- _exists self ;;
  (if ex
   then typer_confirm_abort
          (py "Role " ++ dquote ++ name self ++ dquote ++ py " exist, delete it?")
        ;;; ret tt
   else ret tt) ;;;
  unlink (_file_path (name self)).

Definition same_role (self : SystemRole) (initial_message : str) : bool :=
  if negb (truthy initial_message) then false
  else if contains (py "You are " ++ name self) initial_message then true else false.

Definition get_role_name (initial_message : str) : res (option str) :=
  if negb (truthy initial_message) then Ret None
  else
    let message_lines := splitlines initial_message in
    match message_lines !! 0%nat with
    | None => Raise IndexError
    | Some line0 =>
      if contains (py "You are") line0 then
        match split (py "You are ") line0 !! 1%nat with
        | None => Raise IndexError
        | Some rest => Ret (Some (strip rest))
        end
      else Ret None
    end.

Definition get (n : str) : M SystemRole :=
  fun w =>
    match storage w !! _file_path n with
    | None =>
      (Raise (BadArgumentUsage (py "Role " ++ dquote ++ n ++ dquote ++ py " not found.")), w)
    | Some record => init (name record) (role record) None w
    end.

Definition check_get (shell describe_shell code : bool) : M SystemRole :=
  if shell then get (value SHELL)
  else if describe_shell then get (value DESCRIBE_SHELL)
  else if code then get (value CODE)
  else get (value DEFAULT).

Definition get_role (r : DefaultRoles) : M SystemRole := get (value r).

(** [for x in xs: body(x)] *)
Fixpoint for_each {A} (xs : list A) (body : A -> M unit) : M unit :=
  match xs with
  | [] => ret tt
  | x :: xs' => body x ;;; for_each xs' body
  end.

(** [utils.option_callback]: run only for a truthy option value, then leave
    the program. *)
Definition option_callback (func : str -> M unit) (v : option str) : M unit :=
  match v with
  | Some s => if truthy s then func s ;;; raise Exit else ret tt
  | None => ret tt
  end.

Definition create : option str -> M unit :=
  option_callback (fun n =>
    r <- typer_prompt (py "Enter role description") ;;
    self <- init n r None ;;
    _save self).

Definition show : option str -> M unit :=
  option_callback (fun n => r <- get n ;; emit (Echo (role r))).

Section WithHost.
Variable h : host.

Definition _os_name : str :=
  if negb (str_eqb (cfg_OS_NAME h) (py "auto")) then cfg_OS_NAME h
  else
    let current_platform := platform_system h in
    if str_eqb current_platform (py "Linux") then py "Linux/" ++ distro_name_pretty h
    else if str_eqb current_platform (py "Windows") then py "Windows " ++ platform_release h
    else if str_eqb current_platform (py "Darwin") then py "Darwin/MacOS " ++ platform_mac_ver h
    else current_platform.

Definition _shell_name : str :=
  if negb (str_eqb (cfg_SHELL_NAME h) (py "auto")) then cfg_SHELL_NAME h
  else
    let current_platform := platform_system h in
    if str_eqb current_platform (py "Windows") || str_eqb current_platform (py "nt") then
      let is_powershell :=
        (3 <=? length (split (pathsep h) (getenv h (py "PSModulePath") [])))%nat in
      if is_powershell then py "powershell.exe" else py "cmd.exe"
    else basename (getenv h (py "SHELL") (py "/bin/sh")).

(** [create_defaults] with the save step as a parameter. *)
Definition create_defaults_with (save : SystemRole -> M unit) : M unit :=
  let variables := [(py "shell", _shell_name); (py "os", _os_name)] in
  r1 <- init (py "ShellGPT") DEFAULT_ROLE (Some variables) ;;
  r2 <- init (py "Shell Command Generator") SHELL_ROLE (Some variables) ;;
  r3 <- init (py "Shell Command Descriptor") DESCRIBE_SHELL_ROLE (Some variables) ;;
  r4 <- init (py "Code Generator") CODE_ROLE None ;;
  for_each [r1; r2; r3; r4] (fun default_role =>
    ex <- _exists default_role ;;
    if negb ex then save default_role else ret tt).

Definition create_defaults : M unit := create_defaults_with _save.

End WithHost.

End Role.

(** ** The path of a role, as pathlib and the file system treat it *)

Module Pathlib.

(** errno.ENAMETOOLONG *)
Definition ENAMETOOLONG : N := 36.

(** Where [storage / f"{name}.json"] leads, for a name of one component. *)
Inductive path :=
| Entry (file : str)   (* the entry [file] of the storage directory *)
| Overlong.            (* a name the file system refuses for its length *)

(** [storage / f"{name}.json"].  A name with a separator is taken apart by
    pathlib and may lead to another entry, below an entry or out of the
    directory, and a name with NUL or a surrogate is not passed to the file
    system as it is; the world holds the files of the storage directory by
    their names and nothing else, and these paths are left without a model
    ([None]). *)
Definition file_path (n : str) : option path :=
  if forallb FileName.plain_char n
  then Some (if FileName.fits (Role._file_path n)
             then Entry (Role._file_path n)
             else Overlong)
  else None.

(** [Path.exists()], as in CPython 3.11: of the errors of [os.stat] it
    answers [False] to ENOENT, ENOTDIR, EBADF and ELOOP and lets every other
    one through. *)
Definition path_exists (p : path) : M bool :=
  match p with
  | Entry file =>
    fun w => (Ret match storage w !! file with
                  | Some _ => true
                  | None => false
                  end, w)
  | Overlong => raise (OSError ENAMETOOLONG)
  end.

(** [json.loads(file_path.read_text())] *)
Definition read_text (p : path) : M SystemRole :=
  match p with
  | Entry file =>
    fun w =>
      match storage w !! file with
      | Some record => (Ret record, w)
      | None => (Raise (FileNotFoundError file), w)
      end
  | Overlong => raise (OSError ENAMETOOLONG)
  end.

(** [Path.unlink()] *)
Definition unlink (p : path) : M unit :=
  match p with
  | Entry file => Role.unlink file
  | Overlong => raise (OSError ENAMETOOLONG)
  end.

(** [SystemRole.get], from its second line on. *)
Definition get_at (n : str) (file_path : path) : M SystemRole :=
  ex <- path_exists file_path ;;
  if negb ex
  then raise (BadArgumentUsage (py "Role " ++ dquote ++ n ++ dquote ++ py " not found."))
  else
    record <- read_text file_path ;;
    Role.init (name record) (role record) None.

Definition get (n : str) : option (M SystemRole) :=
  option_map (get_at n) (file_path n).

(** [SystemRole.delete], with [self._file_path] worked out. *)
Definition delete_at (self : SystemRole) (file_path : path) : M unit :=
  ex <- path_exists file_path ;;
  (if ex
   then typer_confirm_abort
          (py "Role " ++ dquote ++ name self ++ dquote ++ py " exist, delete it?")
        ;;; ret tt
   else ret tt) ;;;
  unlink file_path.

Definition delete (self : SystemRole) : option (M unit) :=
  option_map (delete_at self) (file_path (name self)).

(** Running what has a model. *)
Definition run {A : Type} (m : option (M A)) (w : world) : option (res A * world) :=
  option_map (fun c => c w) m.

End Pathlib.

(** ** sgpt/utils.py *)

Module Utils.

(** [shlex.quote]: the empty string becomes two quotes; a string of safe
    characters (ASCII letters, digits, underscore and [@%+=:,./-]) is
    returned as it is; any other is wrapped in single quotes, each single
    quote inside written as quote, double-quoted quote, quote. *)
Definition is_safe (c : N) : bool :=
  ((48 <=? c) && (c <=? 57)) || ((65 <=? c) && (c <=? 90))
  || ((97 <=? c) && (c <=? 122)) || (c =? 95)
  || (c =? 64) || (c =? 37) || (c =? 43) || (c =? 61) || (c =? 58)
  || (c =? 44) || (c =? 46) || (c =? 47) || (c =? 45).

Definition quote (s : str) : str :=
  match s with
  | [] => squote ++ squote
  | _ :: _ =>
    if forallb is_safe s then s
    else squote
         ++ flat_map (fun c => if c =? 39
                               then squote ++ dquote ++ squote ++ dquote ++ squote
                               else [c]) s
         ++ squote
  end.

Section WithHost.
Variable h : host.

(** The string [run_command] hands to [os.system]. *)
Definition full_command (command : str) : str :=
  if str_eqb (platform_system h) (py "Windows") then
    let is_powershell :=
      (3 <=? length (split (pathsep h) (getenv h (py "PSModulePath") [])))%nat in
    if is_powershell
    then py "powershell.exe -Command " ++ dquote ++ command ++ dquote
    else py "cmd.exe /c " ++ dquote ++ command ++ dquote
  else
    let shell := getenv h (py "SHELL") (py "/bin/sh") in
    shell ++ py " -c " ++ quote command.

Definition run_command (command : str) : M unit :=
  emit (System (full_command command)).

Definition get_edited_prompt : M str :=
  let file_path := tmp_file h in
  let editor := getenv h (py "EDITOR") (py "vim") in
  emit (System (editor ++ py " " ++ file_path)) ;;;
  let output := edited_text h in
  if negb (truthy output)
  then raise (BadParameter (py "无法从 $EDITOR 获取有效的 PROMPT。"))
  else ret output.

End WithHost.

End Utils.

(** ** sgpt/app.py *)

Module App.

(** The command-line arguments of [main] that its body reads. *)
Record args := {
  prompt : str;
  model : str;
  temperature : float;
  top_p : float;
  md : bool;
  shell : bool;
  interaction : bool;
  describe_shell : bool;
  code : bool;
  functions : bool;
  editor : bool;
  cache : bool;
  chat : option str;
  repl : option str;
  role_opt : option str   (* the [--role] option *)
}.

(** What the action prompt returns: [Choice(("e", "d", "a", "y"))], case
    folded, the default already filled in. *)
Inductive choice := opt_e | opt_d | opt_a | opt_y.

Definition SENTINEL : str := py "__sgpt__eof__".

(** The loop over the piped lines: accumulate until a line holds the
    sentinel; that line is consumed, the lines after it are not. *)
Fixpoint read_until_sentinel (stdin : str) (lines : list str) : str * list str :=
  match lines with
  | [] => (stdin, [])
  | line :: rest =>
    if contains SENTINEL line then (stdin, rest)
    else read_until_sentinel (stdin ++ line) rest
  end.

(** Line 179: the prompt made of the piped block and the argument. *)
Definition compose_prompt (stdin prompt_arg : str) : str :=
  if truthy prompt_arg then stdin ++ [10; 10] ++ prompt_arg else stdin.

(** Lines 166-179.  The lines the loop did not reach stay in the pipe.
    Lines 180-188 then re-open the terminal for the interactive reads that
    may follow; that changes nothing of the world kept here, where the
    answers typed at the terminal are given apart from the pipe. *)
Definition read_stdin (prompt_arg : str) : M str :=
  fun w =>
    let '(stdin, rest) := read_until_sentinel [] (iter_lines (pipe w)) in
    (Ret (compose_prompt stdin prompt_arg),
     {| storage := storage w; confirms := confirms w; texts := texts w;
        pipe := concat rest; trace := trace w |}).

Definition bool_to_nat (b : bool) : nat := if b then 1%nat else 0%nat.

Section WithHost.
Variable h : host.

(** The handlers are outside this development: a call is recorded and
    answered by [respond], which sees the events so far and may raise. *)
Variable respond : list event -> request -> res str.

Definition handle (req : request) : M str :=
  fun w =>
    match emit (Completion req) w with
    | (_, w') => (respond (trace w) req, w')
    end.

Definition mk_request (v : handler) (r : SystemRole) (ar : args) (p : str)
    (function_schemas : option (list str)) : request :=
  {| via := v; persona := r; markdown := md ar; req_prompt := p;
     req_model := model ar; req_temperature := temperature ar;
     req_top_p := top_p ar; req_caching := cache ar;
     req_functions := function_schemas |}.

(** Lines 242-263.  [keys] are the answers the user gives to the action
    prompt; at the end of the input [typer.prompt] raises [Abort]. *)
Fixpoint action_loop (ar : args) (function_schemas : option (list str))
    (full_completion : str) (keys : list choice) : M unit :=
  if shell ar && interaction ar then
    match keys with
    | [] => emit (Prompt (py "[E]xecute, [D]escribe, [A]bort")) ;;; raise Abort
    | option :: keys' =>
      emit (Prompt (py "[E]xecute, [D]escribe, [A]bort")) ;;;
      match option with
      | opt_e | opt_y => Utils.run_command h full_completion
      | opt_d =>
        r <- Role.get_role Role.DESCRIBE_SHELL ;;
        handle (mk_request DefaultHandler r ar full_completion function_schemas) ;;;
        action_loop ar function_schemas full_completion keys'
      | opt_a => ret tt
      end
    end
  else ret tt.

Definition main (ar : args) (keys : list choice) : M unit :=
  let stdin_passed := negb (stdin_isatty h) in
  prompt1 <- (if stdin_passed then read_stdin (prompt ar) else ret (prompt ar)) ;;
  if (1 <? bool_to_nat (shell ar) + bool_to_nat (describe_shell ar) + bool_to_nat (code ar))%nat
  then raise (BadArgumentUsage
                (py "一次只能使用 --shell、--describe-shell 和 --code 选项中的一个。"))
  else if truthy_opt (chat ar) && truthy_opt (repl ar)
  then raise (BadArgumentUsage (py "--chat 和 --repl 选项不能同时使用。"))
  else if editor ar && stdin_passed
  then raise (BadArgumentUsage (py "--editor 选项不能与标准输入一起使用。"))
  else
    prompt2 <- (if editor ar then Utils.get_edited_prompt h else ret prompt1) ;;
    role_class <- (match role_opt ar with
                   | Some r => if truthy r then Role.get r
                               else Role.check_get (shell ar) (describe_shell ar) (code ar)
                   | None => Role.check_get (shell ar) (describe_shell ar) (code ar)
                   end) ;;
    let function_schemas :=
      if functions ar
      then match openai_schemas h with [] => None | _ :: _ => Some (openai_schemas h) end
      else None in
    (match repl ar with
     | Some id =>
       if truthy id
       then handle (mk_request (ReplHandler id) role_class ar prompt2 function_schemas) ;;; ret tt
       else ret tt
     | None => ret tt
     end) ;;;
    full_completion <-
      (match chat ar with
       | Some id =>
         if truthy id
         then handle (mk_request (ChatHandler id) role_class ar prompt2 function_schemas)
         else handle (mk_request DefaultHandler role_class ar prompt2 function_schemas)
       | None => handle (mk_request DefaultHandler role_class ar prompt2 function_schemas)
       end) ;;
    action_loop ar function_schemas full_completion keys.

End WithHost.

End App.

(** ** [SystemRole.list] and [install_shell_integration]

    Two option callbacks that need more of the machine than the world above
    keeps: the listing of the role directory with the modification time of
    each entry, and the two shell start-up files in the home directory. *)

Module Listing.

(** [sorted(xs, key=key)]: ascending and stable.  Going through the list
    from its end, each element goes in front of the first one whose key is
    not smaller, so of two elements with equal keys the earlier stays
    first. *)
Fixpoint insert_by {A : Type} (key : A -> Z) (x : A) (l : list A) : list A :=
  match l with
  | [] => [x]
  | y :: l' => if (key x <=? key y)%Z then x :: l else y :: insert_by key x l'
  end.

Definition sorted {A : Type} (key : A -> Z) (l : list A) : list A :=
  foldr (insert_by key) [] l.

(** The role directory as [list] sees it: whether it exists, the paths
    [glob("*")] yields, in the order it yields them, and [st_mtime] of each
    (only the order of the times matters; they are given as integers). *)
Record directory := {
  dir_exists : bool;
  glob : list str;
  st_mtime : str -> Z
}.

(** [utils.option_callback] around a flag. *)
Definition flag_callback (func : bool -> M unit) (v : bool) : M unit :=
  if negb v then ret tt else func v ;;; raise Exit.

Definition list (d : directory) : bool -> M unit :=
  flag_callback (fun _value =>
    if negb (dir_exists d) then ret tt
    else
      let files := glob d in
      Role.for_each (sorted (st_mtime d) files) (fun path => emit (Echo path))).

End Listing.

Module Integration.

(** How the callback ends. *)
Inductive outcome :=
| Returned
| Exited
| UsageError (msg : str).

(** The two start-up files (a missing file is an empty one: opening for
    appending creates it) and what has been echoed. *)
Record home := {
  zshrc : str;
  bashrc : str;
  echoed : list str
}.

Section WithScripts.

(** [sgpt.integration.zsh_integration] and [bash_integration], which are
    not part of the sources at hand. *)
Variable zsh_integration bash_integration : str.

Definition install_shell_integration (h : host) (v : bool) (st : home) : outcome * home :=
  if negb v then (Returned, st)
  else
    let shell := getenv h (py "SHELL") [] in
    if contains (py "zsh") shell then
      (Exited,
       {| zshrc := zshrc st ++ zsh_integration;
          bashrc := bashrc st;
          echoed := echoed st ++ [py "Installing ZSH integration...";
                                  py "Done! Restart your shell to apply changes."] |})
    else if contains (py "bash") shell then
      (Exited,
       {| zshrc := zshrc st;
          bashrc := bashrc st ++ bash_integration;
          echoed := echoed st ++ [py "Installing Bash integration...";
                                  py "Done! Restart your shell to apply changes."] |})
    else
      (UsageError (py "ShellGPT integrations only available for ZSH and Bash."), st).

End WithScripts.

End Integration.

(** ** What a POSIX shell makes of a quoted command

    [os.system] gives the string to a shell.  [Sh.words] splits a command
    line into words by the quoting rules of the POSIX shell, for lines made
    of plain characters, blanks, single quotes and double quotes; it gives
    [None] on an unterminated quote and on a character that means something
    of its own to the shell. *)

Module Sh.

Inductive mode := Bare | Single | Double.

Definition is_blank (c : N) : bool := (c =? 32) || (c =? 9) || (c =? 10).

(** | & ; < > ( ) $ ` \ * ? [ # ~ ! { } *)
Definition is_meta (c : N) : bool :=
  (c =? 124) || (c =? 38) || (c =? 59) || (c =? 60) || (c =? 62) || (c =? 40)
  || (c =? 41) || (c =? 36) || (c =? 96) || (c =? 92) || (c =? 42) || (c =? 63)
  || (c =? 91) || (c =? 35) || (c =? 126) || (c =? 33) || (c =? 123) || (c =? 125).

Definition so_far (cur : option str) : str :=
  match cur with Some w => w | None => [] end.

Fixpoint words_from (m : mode) (cur : option str) (s : str) : option (list str) :=
  match s with
  | [] =>
    match m with
    | Bare => Some (match cur with Some w => [w] | None => [] end)
    | Single | Double => None
    end
  | c :: s' =>
    match m with
    | Bare =>
      if is_blank c then
        match cur with
        | Some w => option_map (cons w) (words_from Bare None s')
        | None => words_from Bare None s'
        end
      else if c =? 39 then words_from Single (Some (so_far cur)) s'
      else if c =? 34 then words_from Double (Some (so_far cur)) s'
      else if is_meta c then None
      else words_from Bare (Some (so_far cur ++ [c])) s'
    | Single =>
      if c =? 39 then words_from Bare cur s'
      else words_from Single (Some (so_far cur ++ [c])) s'
    | Double =>
      if c =? 34 then words_from Bare cur s'
      else if (c =? 36) || (c =? 96) || (c =? 92) then None
      else words_from Double (Some (so_far cur ++ [c])) s'
    end
  end.

Definition words (s : str) : option (list str) := words_from Bare None s.

End Sh.

(** ** Vocabulary of the statements *)

(** Write [v] under [k] unless [k] is taken: what one round of the loop of
    [create_defaults] does to the directory. *)
Definition put_absent (k : str) (v : SystemRole) (m : gmap str SystemRole) :
    gmap str SystemRole :=
  match m !! k with
  | Some _ => m
  | None => <[k := v]> m
  end.

(** What [create_defaults] stores for a built-in, and where. *)
Abbreviation default_record d := {| name := Role.value d; role := ROLE_TEMPLATE |}.
Abbreviation default_file d := (Role._file_path (Role.value d)).

(** The world after a few more events. *)
Definition log (w : world) (evs : list event) : world :=
  {| storage := storage w; confirms := confirms w; texts := texts w;
     pipe := pipe w; trace := trace w ++ evs |}.

Definition action_prompt : event := Prompt (py "[E]xecute, [D]escribe, [A]bort").

(** The request of a describe round: the default handler, the descriptor
    role, the held command as the prompt, the arguments of the invocation. *)
Abbreviation describe_request descriptor ar function_schemas command :=
  {| via := DefaultHandler; persona := descriptor; markdown := App.md ar;
     req_prompt := command; req_model := App.model ar;
     req_temperature := App.temperature ar; req_top_p := App.top_p ar;
     req_caching := App.cache ar; req_functions := function_schemas |}.

(** [n] describe rounds, as events. *)
Definition describe_rounds (n : nat) (req : request) : list event :=
  concat (repeat [action_prompt; Completion req] n).

(** Every role file holds a record named after the file. *)
Definition well_named (m : gmap str SystemRole) : Prop :=
  forall (f : str) (r : SystemRole), m !! f = Some r -> f = Role._file_path (name r).

(** The commands among some events, and the requests among them. *)
Fixpoint commands_of (evs : list event) : list str :=
  match evs with
  | [] => []
  | System c :: rest => c :: commands_of rest
  | _ :: rest => commands_of rest
  end.

Fixpoint requests_of (evs : list event) : list request :=
  match evs with
  | [] => []
  | Completion r :: rest => r :: requests_of rest
  | _ :: rest => requests_of rest
  end.

Definition is_d (k : App.choice) : bool :=
  match k with App.opt_d => true | _ => false end.

(** [m] leaves the role directory and the pending answers alone and only
    adds events; its result and the events added satisfy [P]. *)
Definition adds {A : Type} (P : res A -> list event -> Prop) (m : M A) : Prop :=
  forall w : world,
    exists evs : list event,
      storage (snd (m w)) = storage w
      /\ confirms (snd (m w)) = confirms w
      /\ texts (snd (m w)) = texts w
      /\ trace (snd (m w)) = trace w ++ evs
      /\ P (fst (m w)) evs.

(** The pure parts of [main], stage by stage. *)

(** The three checks of lines 190-199 all pass. *)
Definition checks_pass (h : host) (ar : App.args) : bool :=
  negb (1 <? App.bool_to_nat (App.shell ar) + App.bool_to_nat (App.describe_shell ar)
             + App.bool_to_nat (App.code ar))%nat
  && negb (truthy_opt (App.chat ar) && truthy_opt (App.repl ar))
  && negb (App.editor ar && negb (stdin_isatty h)).

(** The world once standard input has been dealt with. *)
Definition after_stdin (h : host) (ar : App.args) (w : world) : world :=
  if stdin_isatty h then w else snd (App.read_stdin (App.prompt ar) w).

(** The prompt that reaches the handler. *)
Definition prompt_sent (h : host) (ar : App.args) (w : world) : str :=
  if App.editor ar then edited_text h
  else if stdin_isatty h then App.prompt ar
  else App.compose_prompt (fst (App.read_until_sentinel [] (iter_lines (pipe w))))
                          (App.prompt ar).

Definition editor_events (h : host) (ar : App.args) : list event :=
  if App.editor ar
  then [System (getenv h (py "EDITOR") (py "vim") ++ py " " ++ tmp_file h)]
  else [].

(** The built-in the intent flags select, and the name [main] resolves. *)
Definition default_of (ar : App.args) : Role.DefaultRoles :=
  if App.shell ar then Role.SHELL
  else if App.describe_shell ar then Role.DESCRIBE_SHELL
  else if App.code ar then Role.CODE
  else Role.DEFAULT.

Definition role_asked (ar : App.args) : str :=
  match App.role_opt ar with
  | Some r => if truthy r then r else Role.value (default_of ar)
  | None => Role.value (default_of ar)
  end.

Definition schemas_sent (h : host) (ar : App.args) : option (list str) :=
  if App.functions ar
  then match openai_schemas h with [] => None | _ :: _ => Some (openai_schemas h) end
  else None.

(** The handler of the main request. *)
Definition main_handler (ar : App.args) : handler :=
  match App.chat ar with
  | Some id => if truthy id then ChatHandler id else DefaultHandler
  | None => DefaultHandler
  end.

(** ** Sample hosts and worlds *)

Module Sample.

Definition empty_world : world :=
  {| storage := ∅; confirms := []; texts := []; pipe := []; trace := [] |}.


(** A Linux machine with bash as the login shell, nothing configured. *)
Definition linux : host :=
  {| cfg_OS_NAME := py "auto";
     cfg_SHELL_NAME := py "auto";
     platform_system := py "Linux";
     distro_name_pretty := py "Ubuntu 22.04.3 LTS";
     platform_release := py "5.15.0";
     platform_mac_ver := [];
     environ := {[ py "SHELL" := py "/bin/bash" ]};
     pathsep := py ":";
     stdin_isatty := true;
     openai_schemas := [];
     tmp_file := py "/tmp/tmpab12.txt";
     edited_text := [] |}.

(** A Windows machine started from PowerShell. *)
Definition windows : host :=
  {| cfg_OS_NAME := py "auto";
     cfg_SHELL_NAME := py "auto";
     platform_system := py "Windows";
     distro_name_pretty := [];
     platform_release := py "10";
     platform_mac_ver := [];
     environ := {[ py "PSModulePath" := py "C:\a;C:\b;C:\c" ]};
     pathsep := py ";";
     stdin_isatty := true;
     openai_schemas := [];
     tmp_file := py "C:\Temp\tmpab12.txt";
     edited_text := [] |}.

(** The Linux machine again, with standard input coming from a pipe. *)
Definition linux_piped : host :=
  {| cfg_OS_NAME := py "auto";
     cfg_SHELL_NAME := py "auto";
     platform_system := py "Linux";
     distro_name_pretty := py "Ubuntu 22.04.3 LTS";
     platform_release := py "5.15.0";
     platform_mac_ver := [];
     environ := {[ py "SHELL" := py "/bin/bash" ]};
     pathsep := py ":";
     stdin_isatty := false;
     openai_schemas := [];
     tmp_file := py "/tmp/tmpab12.txt";
     edited_text := [] |}.

(** A plain question, no mode set. *)
Definition plain_args : App.args :=
  {| App.prompt := py "Q";
     App.model := py "gpt-4";
     App.temperature := 0%float;
     App.top_p := 1%float;
     App.md := true;
     App.shell := false;
     App.interaction := true;
     App.describe_shell := false;
     App.code := false;
     App.functions := false;
     App.editor := false;
     App.cache := true;
     App.chat := None;
     App.repl := None;
     App.role_opt := None |}.

(** A directory with one role made by a user, and the answers still to
    come to the yes/no questions. *)
Definition pirate : SystemRole := {| name := py "pirate"; role := py "old" |}.

Definition with_pirate (answers : list bool) : world :=
  {| storage := {[ py "pirate.json" := pirate ]};
     confirms := answers; texts := []; pipe := []; trace := [] |}.

(** The same question, to be typed in the editor. *)
Definition editor_args : App.args :=
  {| App.prompt := py "Q";
     App.model := py "gpt-4";
     App.temperature := 0%float;
     App.top_p := 1%float;
     App.md := true;
     App.shell := false;
     App.interaction := true;
     App.describe_shell := false;
     App.code := false;
     App.functions := false;
     App.editor := true;
     App.cache := true;
     App.chat := None;
     App.repl := None;
     App.role_opt := None |}.

(** The same question, to start a REPL session. *)
Definition repl_args : App.args :=
  {| App.prompt := py "Q";
     App.model := py "gpt-4";
     App.temperature := 0%float;
     App.top_p := 1%float;
     App.md := true;
     App.shell := false;
     App.interaction := true;
     App.describe_shell := false;
     App.code := false;
     App.functions := false;
     App.editor := false;
     App.cache := true;
     App.chat := None;
     App.repl := Some (py "temp");
     App.role_opt := None |}.

(** The world a process starts in on an empty directory: the defaults have
    been created. *)
Definition started : world :=
  {| storage := storage (snd (Role.create_defaults linux empty_world));
     confirms := []; texts := []; pipe := []; trace := [] |}.

(** A provider that answers every request with the same text. *)
Definition echo_ok : list event -> request -> res str :=
  fun _ _ => Ret (py "ok").

Definition shell_args : App.args :=
  {| App.prompt := py "list files";
     App.model := py "gpt-4";
     App.temperature := 0%float;
     App.top_p := 1%float;
     App.md := true;
     App.shell := true;
     App.interaction := true;
     App.describe_shell := false;
     App.code := false;
     App.functions := false;
     App.editor := false;
     App.cache := true;
     App.chat := None;
     App.repl := None;
     App.role_opt := None |}.

End Sample.

(** * Checks of the string model *)

Example py_ascii : py "You are" = [89; 111; 117; 32; 97; 114; 101].
Proof. reflexivity. Qed.

Example py_cjk : py "你是" = [20320; 26159].
Proof. reflexivity. Qed.

Example split_twice : split (py "You are ") (py "aYou are bYou are c") = [py "a"; py "b"; py "c"].
Proof. reflexivity. Qed.

Example splitlines_crlf :
  splitlines (py "a" ++ [13; 10] ++ py "b" ++ [10; 10] ++ py "c" ++ [10]) = [py "a"; py "b"; []; py "c"].
Proof. reflexivity. Qed.

Example iter_lines_ex :
  iter_lines (py "a" ++ [10] ++ py "b") = [py "a" ++ [10]; py "b"].
Proof. reflexivity. Qed.

Example format_original_template :
  format (py "You are {name}" ++ [10] ++ py "{role}")
         [(py "name", py "ShellGPT"); (py "role", py "be brief")]
  = Ret (py "You are ShellGPT" ++ [10] ++ py "be brief").
Proof. reflexivity. Qed.

Example format_missing_key :
  format (py "a {x} b") [(py "y", py "1")] = Raise (KeyError (py "x")).
Proof. reflexivity. Qed.

Example format_escapes :
  format (py "{{}} {y}") [(py "y", py "1")] = Ret (py "{} 1").
Proof. reflexivity. Qed.

Example template_lengths :
  (length SHELL_ROLE, length DESCRIBE_SHELL_ROLE, length CODE_ROLE,
   length DEFAULT_ROLE, length ROLE_TEMPLATE) = (127, 77, 168, 130, 23)%nat.
Proof. vm_compute. reflexivity. Qed.

Example strip_both_ends :
  strip ([32; 9] ++ py "a b" ++ [32; 10; 12288]) = py "a b".
Proof. reflexivity. Qed.

Example basename_of_shell :
  basename (py "/usr/bin/zsh") = py "zsh" /\ basename (py "/bin/") = [].
Proof. split; reflexivity. Qed.

Example quote_with_single_quote :
  Utils.quote (py "echo it's") = py "'echo it'" ++ dquote ++ py "'" ++ dquote ++ py "'s'".
Proof. reflexivity. Qed.

Example quote_safe_and_empty :
  Utils.quote (py "ls") = py "ls" /\ Utils.quote [] = py "''".
Proof. split; reflexivity. Qed.

Example words_of_a_command_line :
  Sh.words (py "/bin/bash -c 'ls -la'") = Some [py "/bin/bash"; py "-c"; py "ls -la"].
Proof. reflexivity. Qed.

Example get_role_name_of_identity_line :
  Role.get_role_name (py "You are ShellGPT" ++ [10] ++ py "be brief")
  = Ret (Some (py "ShellGPT")).
Proof. reflexivity. Qed.

(** * Facts about the string operations *)

Section StrFacts.

Lemma starts_with_app (sub post : str) : starts_with sub (sub ++ post) = true.
Proof.
  induction sub as [|c sub IH]; simpl; [reflexivity|].
  rewrite N.eqb_refl. exact IH.
Qed.

Lemma starts_with_inv (sub s : str) :
  starts_with sub s = true -> exists post, s = sub ++ post.
Proof.
  revert s. induction sub as [|c sub IH]; intros s H.
  - exists s. reflexivity.
  - destruct s as [|b s]; simpl in H; [discriminate|].
    apply andb_true_iff in H as [Hc Hs].
    apply N.eqb_eq in Hc. subst b.
    destruct (IH _ Hs) as [post ->]. exists post. reflexivity.
Qed.

Lemma starts_with_contains (sub s : str) :
  starts_with sub s = true -> contains sub s = true.
Proof. intros H. destruct s; simpl; simpl in H; rewrite H; reflexivity. Qed.

Lemma contains_iff (sub s : str) :
  contains sub s = true <-> exists pre post, s = pre ++ sub ++ post.
Proof.
  split.
  - induction s as [|c s IH]; simpl; intros H.
    + rewrite orb_false_r in H. apply starts_with_inv in H as [post ->].
      exists [], post. reflexivity.
    + apply orb_true_iff in H as [H|H].
      * apply starts_with_inv in H as [post ->]. exists [], post. reflexivity.
      * destruct (IH H) as (pre & post & ->). exists (c :: pre), post. reflexivity.
  - intros (pre & post & ->).
    induction pre as [|c pre IH].
    + simpl. apply starts_with_contains, starts_with_app.
    + simpl. simpl in IH. rewrite IH. apply orb_true_r.
Qed.

Lemma contains_prefix (a b s : str) :
  contains (a ++ b) s = true -> contains a s = true.
Proof.
  rewrite !contains_iff. intros (pre & post & ->).
  exists pre, (b ++ post). rewrite <- app_assoc. reflexivity.
Qed.

Lemma contains_nil_r (sub : str) : sub <> [] -> contains sub [] = false.
Proof. destruct sub; [congruence|reflexivity]. Qed.

Lemma split_from_absent (sep cur s : str) :
  contains sep s = false -> split_from sep O cur s = [cur ++ s].
Proof.
  revert cur. induction s as [|c s IH]; intros cur H; simpl.
  - rewrite app_nil_r. reflexivity.
  - simpl in H. apply orb_false_iff in H as [H1 H2].
    rewrite H1, (IH _ H2), <- app_assoc. reflexivity.
Qed.

Lemma split_from_head (sep : str) (k : nat) (cur s : str) :
  exists x rest, split_from sep k cur s = x :: rest.
Proof.
  revert k cur. induction s as [|c s IH]; intros k cur; simpl; [eauto|].
  destruct k; [|apply IH].
  destruct (starts_with sep (c :: s)); [eauto|apply IH].
Qed.

Lemma split_from_present (sep cur s : str) :
  sep <> [] -> contains sep s = true ->
  exists x y rest, split_from sep O cur s = x :: y :: rest.
Proof.
  intros Hsep. revert cur. induction s as [|c s IH]; intros cur H.
  - rewrite contains_nil_r in H by assumption. discriminate.
  - simpl in H. simpl. destruct (starts_with sep (c :: s)) eqn:E.
    + destruct (split_from_head sep (Nat.pred (length sep)) [] s) as (x & rest & ->).
      eauto.
    + simpl in H. apply IH. exact H.
Qed.

(** [s.split(sep)[1]] exists exactly when [sep in s]. *)
Lemma split_second (sep s : str) :
  sep <> [] -> (is_Some (split sep s !! 1%nat) <-> contains sep s = true).
Proof.
  intros Hsep. unfold split. destruct (contains sep s) eqn:E.
  - destruct (split_from_present sep [] s Hsep E) as (x & y & rest & ->).
    simpl. split; eauto.
  - rewrite (split_from_absent _ _ _ E). simpl. split; [intros [? ?]|]; discriminate.
Qed.

Lemma splitlines_from_head (cur s : str) :
  cur <> [] \/ s <> [] -> exists l ls, splitlines_from cur s = l :: ls.
Proof.
  revert cur. induction s as [|c s IH]; intros cur H; simpl.
  - destruct cur; [destruct H; congruence|eauto].
  - destruct (is_linebreak c); [eauto|].
    apply IH. left. destruct cur; discriminate.
Qed.

(** A non-empty string always has a first line. *)
Lemma splitlines_head (s : str) :
  s <> [] -> exists l ls, splitlines s = l :: ls.
Proof. intros H. apply splitlines_from_head. right. exact H. Qed.

Lemma iter_lines_from_concat (cur s : str) :
  concat (iter_lines_from cur s) = cur ++ s.
Proof.
  revert cur. induction s as [|c s IH]; intros cur; simpl.
  - destruct cur; simpl; rewrite ?app_nil_r; reflexivity.
  - destruct (c =? 10); simpl; rewrite IH, <- ?app_assoc; reflexivity.
Qed.

(** Iterating over a text stream loses nothing: the lines, joined, give the
    text back. *)
Lemma iter_lines_concat (s : str) : concat (iter_lines s) = s.
Proof. apply iter_lines_from_concat. Qed.

End StrFacts.

(** * The role registry *)

Lemma sep_you_are_nonempty : py "You are " <> [].
Proof. vm_compute. discriminate. Qed.


(** A record that is there is returned as it is. *)
Lemma get_present (n : str) (record : SystemRole) (w : world) :
  storage w !! Role._file_path n = Some record -> Role.get n w = (Ret record, w).
Proof.
  intros H. unfold Role.get. rewrite H. destruct record. reflexivity.
Qed.


(** With a record present, [delete] asks first; the record goes only on a
    yes. *)
Lemma delete_present (self record : SystemRole) (w : world) :
  storage w !! Role._file_path (name self) = Some record ->
  exists w',
    Role.delete self w
    = (match confirms w with true :: _ => Ret tt | _ => Raise Abort end, w')
    /\ trace w'
       = trace w ++ [Confirm (py "Role " ++ dquote ++ name self ++ dquote
                              ++ py " exist, delete it?")]
    /\ storage w'
       = match confirms w with
         | true :: _ => base.delete (Role._file_path (name self)) (storage w)
         | _ => storage w
         end.
Proof.
  intros H. unfold Role.delete, Role._exists, Role.unlink, bind, ret,
    typer_confirm_abort, bind, emit.
  rewrite H. cbn [storage confirms texts pipe trace].
  destruct (confirms w) as [|[] rest]; cbn [storage confirms texts pipe trace];
    try rewrite H; eexists; split; try reflexivity; split; reflexivity.
Qed.

(** ** Plain file names

    For a plain file name the path of a role is the entry [name.json], and
    [get] and [delete] on the path are the functions of [Role]. *)









(** C9, as amended: [get_role_name] raises [IndexError] exactly when the
    message has a first line that contains "You are" but not "You are "
    (with the space after it). *)
Theorem C9_get_role_name_index_error (msg : str) :
  Role.get_role_name msg = Raise IndexError
  <-> exists line0,
        splitlines msg !! 0%nat = Some line0
        /\ contains (py "You are") line0 = true
        /\ contains (py "You are ") line0 = false.
Proof.
  unfold Role.get_role_name.
  destruct msg as [|c msg].
  - cbn [truthy negb]. split; [discriminate|].
    intros (line0 & H & _). discriminate.
  - cbn [truthy negb].
    destruct (splitlines_head (c :: msg)) as (l & ls & ->); [discriminate|].
    cbn [lookup list_lookup].
    destruct (contains (py "You are") l) eqn:E1.
    + pose proof (split_second (py "You are ") l sep_you_are_nonempty) as Hs.
      destruct (split (py "You are ") l !! 1%nat) as [rest|] eqn:E2.
      * split; [discriminate|].
        intros (line0 & [= <-] & _ & Hno).
        assert (contains (py "You are ") l = true) as Hyes by (apply Hs; eauto).
        congruence.
      * split; [|reflexivity]. intros _. exists l.
        repeat split; [assumption|].
        destruct (contains (py "You are ") l); [|reflexivity].
        destruct Hs as [_ Hs]. destruct (Hs eq_refl). discriminate.
    + split; [discriminate|].
      intros (line0 & [= <-] & Hyes & _). congruence.
Qed.





Lemma C9_get_role_name_index_error_witness :
  Role.get_role_name (py "You aren't a role") = Raise IndexError.
Proof.
  apply (proj2 (C9_get_role_name_index_error (py "You aren't a role"))).
  exists (py "You aren't a role"). vm_compute. repeat split.
Defined.

(** C9 as stated fails on the message "You are " (nothing after the
    space): its first line contains "You are", no text follows "You are ",
    and [get_role_name] returns the empty name. *)
Lemma C9_counterexample :
  py "You are " <> []
  /\ splitlines (py "You are ") !! 0%nat = Some (py "You are ")
  /\ contains (py "You are") (py "You are ") = true
  /\ (~ exists pre post : str,
          post <> [] /\ py "You are " = pre ++ py "You are " ++ post)
  /\ Role.get_role_name (py "You are ") = Ret (Some [])
  /\ Role.get_role_name (py "You are ") <> Raise IndexError.
Proof.
  split; [apply sep_you_are_nonempty|].
  split; [vm_compute; reflexivity|].
  split; [vm_compute; reflexivity|].
  split.
  - intros (pre & post & Hne & E).
    apply (f_equal length) in E. rewrite !length_app in E.
    change (length (py "You are ")) with 8%nat in E.
    destruct post; [congruence|]. simpl in E. lia.
  - split; [vm_compute; reflexivity|]. vm_compute. discriminate.
Qed.

(** ** Saving and the default roles *)

Lemma lookup_put_absent_taken (k : str) (v : SystemRole) (m : gmap str SystemRole)
    (f : str) (record : SystemRole) :
  m !! f = Some record -> put_absent k v m !! f = Some record.
Proof.
  intros H. unfold put_absent. destruct (m !! k) eqn:E; [exact H|].
  rewrite lookup_insert_ne; [exact H|]. intros ->. congruence.
Qed.

Lemma lookup_put_absent_free (k : str) (v : SystemRole) (m : gmap str SystemRole)
    (f : str) :
  m !! f = None ->
  put_absent k v m !! f = if bool_decide (k = f) then Some v else None.
Proof.
  intros H. unfold put_absent. case_bool_decide as E.
  - subst f. rewrite H. apply lookup_insert_eq.
  - destruct (m !! k); [exact H|]. rewrite lookup_insert_ne; assumption.
Qed.

Lemma set_storage_id (w : world) : set_storage (fun m => m) w = w.
Proof. destruct w. reflexivity. Qed.

Lemma set_storage_compose (f g : gmap str SystemRole -> gmap str SystemRole) (w : world) :
  set_storage g (set_storage f w) = set_storage (fun m => g (f m)) w.
Proof. reflexivity. Qed.

(** The template in force has no replacement field: whatever the name and
    the description, formatting it gives the template itself. *)
Lemma format_ROLE_TEMPLATE (n r : str) :
  format ROLE_TEMPLATE [(py "name", n); (py "role", r)] = Ret ROLE_TEMPLATE.
Proof. vm_compute. reflexivity. Qed.

Lemma save_fresh (self : SystemRole) (w : world) :
  storage w !! Role._file_path (name self) = None ->
  Role._save self w
  = (Ret tt,
     set_storage (insert (Role._file_path (name self))
                         {| name := name self; role := ROLE_TEMPLATE |}) w).
Proof.
  intros H. unfold Role._save, Role._save_with, Role._exists, bind, ret.
  rewrite H, format_ROLE_TEMPLATE. reflexivity.
Qed.

(** Saving over a record asks first; whatever comes back, a record that is
    written holds the template and nothing of the description. *)
Lemma save_taken (self record : SystemRole) (w : world) :
  storage w !! Role._file_path (name self) = Some record ->
  exists w',
    Role._save self w
    = (match confirms w with true :: _ => Ret tt | _ => Raise Abort end, w')
    /\ storage w'
       = match confirms w with
         | true :: _ => <[Role._file_path (name self) :=
                            {| name := name self; role := ROLE_TEMPLATE |}]> (storage w)
         | _ => storage w
         end.
Proof.
  intros H. unfold Role._save, Role._save_with, Role._exists, bind, ret,
    typer_confirm_abort, bind, emit.
  rewrite H, format_ROLE_TEMPLATE. cbn [storage confirms texts pipe trace].
  destruct (confirms w) as [|[] rest]; eexists; split; reflexivity.
Qed.

Lemma save_if_absent (self : SystemRole) (w : world) :
  (ex <- Role._exists self ;; if negb ex then Role._save self else ret tt) w
  = (Ret tt,
     set_storage (put_absent (Role._file_path (name self))
                             {| name := name self; role := ROLE_TEMPLATE |}) w).
Proof.
  unfold bind at 1. unfold Role._exists at 1.
  destruct (storage w !! Role._file_path (name self)) eqn:E; cbn [negb].
  - unfold ret. f_equal. destruct w. unfold set_storage, put_absent.
    cbn [storage confirms texts pipe trace] in *. rewrite E. reflexivity.
  - rewrite (save_fresh _ _ E). f_equal. unfold set_storage, put_absent.
    rewrite E. reflexivity.
Qed.

Lemma format_DEFAULT_ROLE (s o : str) :
  exists body, format DEFAULT_ROLE [(py "shell", s); (py "os", o)] = Ret body.
Proof. eexists. vm_compute. reflexivity. Qed.

Lemma format_SHELL_ROLE (s o : str) :
  exists body, format SHELL_ROLE [(py "shell", s); (py "os", o)] = Ret body.
Proof. eexists. vm_compute. reflexivity. Qed.

Lemma format_DESCRIBE_SHELL_ROLE (s o : str) :
  format DESCRIBE_SHELL_ROLE [(py "shell", s); (py "os", o)] = Ret DESCRIBE_SHELL_ROLE.
Proof. vm_compute. reflexivity. Qed.

(** The whole of [create_defaults]: four rounds of write-unless-taken, no
    question asked, no failure. *)
Lemma create_defaults_run (h : host) (w : world) :
  Role.create_defaults h w
  = (Ret tt,
     set_storage (fun m =>
       put_absent (default_file Role.CODE) (default_record Role.CODE)
        (put_absent (default_file Role.DESCRIBE_SHELL) (default_record Role.DESCRIBE_SHELL)
          (put_absent (default_file Role.SHELL) (default_record Role.SHELL)
            (put_absent (default_file Role.DEFAULT) (default_record Role.DEFAULT) m)))) w).
Proof.
  unfold Role.create_defaults, Role.create_defaults_with.
  generalize (Role._shell_name h) (Role._os_name h). intros s o.
  destruct (format_DEFAULT_ROLE s o) as [b1 E1].
  destruct (format_SHELL_ROLE s o) as [b2 E2].
  pose proof (format_DESCRIBE_SHELL_ROLE s o) as E3.
  unfold Role.init. cbv beta iota. rewrite E1, E2, E3.
  unfold bind at 1 2 3 4. unfold ret at 1 2 3 4.
  cbn [Role.for_each].
  unfold bind at 1. rewrite save_if_absent.
  unfold bind at 1. rewrite save_if_absent.
  unfold bind at 1. rewrite save_if_absent.
  unfold bind at 1. rewrite save_if_absent.
  cbn [name]. unfold Role.value.
  rewrite !set_storage_compose. reflexivity.
Qed.

Ltac solve_put :=
  first
    [ assumption
    | apply lookup_put_absent_taken; solve_put
    | rewrite lookup_put_absent_free;
      [ first
          [ rewrite bool_decide_eq_true_2 by (vm_compute; reflexivity); reflexivity
          | rewrite bool_decide_eq_false_2 by (vm_compute; discriminate); reflexivity ]
      | solve_put ] ].

Lemma create_defaults_keeps (h : host) (w : world) (f : str) (record : SystemRole) :
  storage w !! f = Some record ->
  storage (snd (Role.create_defaults h w)) !! f = Some record.
Proof.
  intros H. rewrite create_defaults_run. cbn [snd]. unfold set_storage.
  cbn [storage]. solve_put.
Qed.

Lemma create_defaults_writes (h : host) (w : world) (d : Role.DefaultRoles) :
  storage w !! default_file d = None ->
  storage (snd (Role.create_defaults h w)) !! default_file d = Some (default_record d).
Proof.
  intros H. rewrite create_defaults_run. cbn [snd]. unfold set_storage.
  cbn [storage]. destruct d; solve_put.
Qed.

(** Every built-in is on record once [create_defaults] has run. *)
Lemma create_defaults_present (h : host) (w : world) (d : Role.DefaultRoles) :
  is_Some (storage (snd (Role.create_defaults h w)) !! default_file d).
Proof.
  destruct (storage w !! default_file d) as [record|] eqn:Hd.
  - rewrite (create_defaults_keeps h w _ _ Hd). eauto.
  - rewrite (create_defaults_writes h w _ Hd). eauto.
Qed.

(** C7: [create_defaults] returns without asking anything, keeps every
    record the directory already holds (a customised built-in included),
    writes each built-in that was absent, and writes no other file. *)
Theorem C7_create_defaults_keeps_records (h : host) (w : world) :
  exists w',
    Role.create_defaults h w = (Ret tt, w')
    /\ confirms w' = confirms w
    /\ trace w' = trace w
    /\ (forall (f : str) (record : SystemRole),
          storage w !! f = Some record -> storage w' !! f = Some record)
    /\ (forall d : Role.DefaultRoles,
          storage w !! default_file d = None ->
          storage w' !! default_file d = Some (default_record d))
    /\ (forall f : str,
          storage w !! f = None -> (forall d, f <> default_file d) ->
          storage w' !! f = None).
Proof.
  exists (snd (Role.create_defaults h w)).
  split; [rewrite create_defaults_run; reflexivity|].
  split; [rewrite create_defaults_run; reflexivity|].
  split; [rewrite create_defaults_run; reflexivity|].
  split; [|split].
  - intros f record H. apply create_defaults_keeps. exact H.
  - intros d H. apply create_defaults_writes. exact H.
  - intros f H Hn. rewrite create_defaults_run. cbn [snd]. unfold set_storage.
    cbn [storage].
    assert (forall d, bool_decide (default_file d = f) = false) as Hd.
    { intros d. apply bool_decide_eq_false_2. intros E. apply (Hn d). congruence. }
    repeat (rewrite lookup_put_absent_free; [rewrite Hd; try reflexivity|]).
    exact H.
Qed.

Lemma C7_create_defaults_keeps_records_witness :
  storage
    (snd (Role.create_defaults Sample.linux
            (set_storage
               (insert (py "ShellGPT.json")
                       {| name := py "ShellGPT"; role := py "my own text" |})
               Sample.empty_world)))
  !! py "ShellGPT.json"
  = Some {| name := py "ShellGPT"; role := py "my own text" |}.
Proof.
  destruct (C7_create_defaults_keeps_records Sample.linux
              (set_storage
                 (insert (py "ShellGPT.json")
                         {| name := py "ShellGPT"; role := py "my own text" |})
                 Sample.empty_world))
    as (w' & E & _ & _ & Hkeep & _ & _).
  rewrite E. cbn [snd]. apply Hkeep. vm_compute. reflexivity.
Defined.

(** ** The identity preamble *)

Lemma template_lacks_you_are : contains (py "You are ") ROLE_TEMPLATE = false.
Proof. vm_compute. reflexivity. Qed.

(** No role is recognised in the text that [_save] stores. *)
Lemma same_role_template (self : SystemRole) :
  Role.same_role self ROLE_TEMPLATE = false.
Proof.
  unfold Role.same_role.
  destruct (negb (truthy ROLE_TEMPLATE)); [reflexivity|].
  destruct (contains (py "You are " ++ name self) ROLE_TEMPLATE) eqn:E; [|reflexivity].
  apply contains_prefix in E. rewrite template_lacks_you_are in E. discriminate.
Qed.

(** With the template the source keeps in a comment, a saved built-in
    carries its identity line, and both detectors find it. *)
Lemma commented_out_template_has_preamble :
  exists body,
    storage (snd (Role._save_with ROLE_TEMPLATE_commented_out
                    {| name := py "ShellGPT"; role := py "be brief" |}
                    Sample.empty_world))
    !! py "ShellGPT.json"
    = Some {| name := py "ShellGPT"; role := body |}
    /\ starts_with (py "You are ShellGPT") body = true
    /\ Role.same_role {| name := py "ShellGPT"; role := body |} body = true
    /\ Role.get_role_name body = Ret (Some (py "ShellGPT")).
Proof. eexists. vm_compute. repeat split. Qed.

(** C1, at the failing inputs: after [create_defaults] on an empty
    directory, on any host, each built-in is stored with the fixed text
    "你是YiboLiu设计并改进的ShellGPT" as its body; a role made with [create]
    is stored with the same body; that body does not begin with "You are"
    and the role's name, [same_role] answers false on it for every role, and
    [get_role_name] finds no name in it. *)
Theorem C1_saved_body_lacks_identity_line :
  (forall (h : host) (d : Role.DefaultRoles),
      fst (Role.get (Role.value d) (snd (Role.create_defaults h Sample.empty_world)))
      = Ret {| name := Role.value d; role := ROLE_TEMPLATE |})
  /\ storage
       (snd (Role.create (Some (py "pirate"))
               {| storage := ∅; confirms := []; texts := [py "Talk like a pirate"];
                  pipe := []; trace := [] |}))
     !! py "pirate.json"
     = Some {| name := py "pirate"; role := ROLE_TEMPLATE |}
  /\ (forall n : str, starts_with (py "You are " ++ n) ROLE_TEMPLATE = false)
  /\ (forall self : SystemRole, Role.same_role self ROLE_TEMPLATE = false)
  /\ Role.get_role_name ROLE_TEMPLATE = Ret None.
Proof.
  split; [|split; [|split; [|split]]].
  - intros h d.
    unfold Role.get.
    rewrite (create_defaults_writes h Sample.empty_world d (lookup_empty _)).
    reflexivity.
  - vm_compute. reflexivity.
  - intros n. destruct (starts_with (py "You are " ++ n) ROLE_TEMPLATE) eqn:E; [|reflexivity].
    apply starts_with_contains, contains_prefix in E.
    rewrite template_lacks_you_are in E. discriminate.
  - apply same_role_template.
  - vm_compute. reflexivity.
Qed.

(** C2, at the failing input: on a Linux host with bash, [create_defaults]
    on an empty directory computes "bash" and "Linux/Ubuntu 22.04.3 LTS",
    substitutes them into the templates when the role objects are built,
    and then stores for every built-in a body that contains neither. *)
Theorem C2_default_bodies_lack_shell_and_os :
  Role._shell_name Sample.linux = py "bash"
  /\ Role._os_name Sample.linux = py "Linux/Ubuntu 22.04.3 LTS"
  /\ (exists built,
        fst (Role.init (py "Shell Command Generator") SHELL_ROLE
               (Some [(py "shell", py "bash"); (py "os", py "Linux/Ubuntu 22.04.3 LTS")])
               Sample.empty_world) = Ret built
        /\ contains (py "bash") (role built) = true
        /\ contains (py "Linux/Ubuntu 22.04.3 LTS") (role built) = true)
  /\ (forall d : Role.DefaultRoles,
        exists r,
          fst (Role.get (Role.value d)
                 (snd (Role.create_defaults Sample.linux Sample.empty_world))) = Ret r
          /\ contains (py "bash") (role r) = false
          /\ contains (py "Linux/Ubuntu 22.04.3 LTS") (role r) = false).
Proof.
  split; [vm_compute; reflexivity|].
  split; [vm_compute; reflexivity|].
  split.
  - eexists. vm_compute. repeat split.
  - intros d. destruct d; eexists; vm_compute; repeat split.
Qed.

(** * Prompt extraction from piped input *)



(** The prompt so made is the one the handler receives: the run of the
    specification's example, from start to end. *)
Example main_sends_piped_prompt :
  exists w',
    App.main Sample.linux_piped Sample.echo_ok Sample.plain_args []
      {| storage := storage (snd (Role.create_defaults Sample.linux_piped Sample.empty_world));
         confirms := []; texts := [];
         pipe := py "line1" ++ [10] ++ py "line2" ++ [10]
                 ++ py "__sgpt__eof__" ++ [10] ++ py "REMAINDER" ++ [10];
         trace := [] |}
    = (Ret tt, w')
    /\ pipe w' = py "REMAINDER" ++ [10]
    /\ trace w'
       = [Completion
            {| via := DefaultHandler;
               persona := {| name := py "ShellGPT"; role := ROLE_TEMPLATE |};
               markdown := true;
               req_prompt := py "line1" ++ [10] ++ py "line2" ++ [10] ++ [10] ++ [10] ++ py "Q";
               req_model := py "gpt-4";
               req_temperature := 0%float;
               req_top_p := 1%float;
               req_caching := true;
               req_functions := None |}].
Proof. eexists. vm_compute. repeat split. Qed.

(** * Conflicting intents *)

(** C5: with at least two of [--shell], [--describe-shell] and [--code]
    set, [main] raises the usage error and its trace of events is the one
    it started with: no handler was called, nothing was run. *)
Theorem C5_conflicting_intents (h : host) (respond : list event -> request -> res str)
    (ar : App.args) (keys : list App.choice) (w : world) :
  (App.shell ar && App.describe_shell ar) || (App.shell ar && App.code ar)
  || (App.describe_shell ar && App.code ar) = true ->
  exists w',
    App.main h respond ar keys w
    = (Raise (BadArgumentUsage
                (py "一次只能使用 --shell、--describe-shell 和 --code 选项中的一个。")), w')
    /\ trace w' = trace w
    /\ storage w' = storage w.
Proof.
  intros H. unfold App.main.
  assert ((1 <? App.bool_to_nat (App.shell ar) + App.bool_to_nat (App.describe_shell ar)
                + App.bool_to_nat (App.code ar))%nat = true) as Hsum.
  { destruct (App.shell ar), (App.describe_shell ar), (App.code ar);
      try discriminate H; reflexivity. }
  rewrite Hsum. unfold bind.
  destruct (negb (stdin_isatty h)).
  - unfold App.read_stdin.
    destruct (App.read_until_sentinel [] (iter_lines (pipe w))) as [stdin rest].
    eexists. split; [reflexivity|]. split; reflexivity.
  - unfold ret, raise. eexists. split; [reflexivity|]. split; reflexivity.
Qed.

Lemma C5_conflicting_intents_witness :
  exists w',
    App.main Sample.linux Sample.echo_ok
      {| App.prompt := py "hello"; App.model := py "gpt-4";
         App.temperature := 0%float; App.top_p := 1%float; App.md := true;
         App.shell := true; App.interaction := true; App.describe_shell := false;
         App.code := true; App.functions := false; App.editor := false;
         App.cache := true; App.chat := None; App.repl := None;
         App.role_opt := None |}
      [App.opt_e] Sample.empty_world
    = (Raise (BadArgumentUsage
                (py "一次只能使用 --shell、--describe-shell 和 --code 选项中的一个。")), w')
    /\ trace w' = trace Sample.empty_world
    /\ storage w' = storage Sample.empty_world.
Proof.
  apply (C5_conflicting_intents Sample.linux Sample.echo_ok). reflexivity.
Defined.

(** * The shell action loop *)

Lemma log_log (w : world) (a b : list event) : log (log w a) b = log w (a ++ b).
Proof. unfold log. cbn [storage confirms texts pipe trace]. rewrite app_assoc. reflexivity. Qed.

Lemma log_nil (w : world) : log w [] = w.
Proof. destruct w. unfold log. cbn [storage confirms texts pipe trace]. rewrite app_nil_r. reflexivity. Qed.

Lemma emit_log (ev : event) (w : world) : emit ev w = (Ret tt, log w [ev]).
Proof. reflexivity. Qed.

Lemma storage_log (w : world) (evs : list event) : storage (log w evs) = storage w.
Proof. reflexivity. Qed.

Lemma trace_log (w : world) (evs : list event) : trace (log w evs) = trace w ++ evs.
Proof. reflexivity. Qed.

Section ActionLoop.

Variable h : host.
Variable respond : list event -> request -> res str.
Variable ar : App.args.
Variable function_schemas : option (list str).
Variable full_completion : str.

Hypothesis shell_set : App.shell ar = true.
Hypothesis interaction_set : App.interaction ar = true.

Let loop := App.action_loop h respond ar function_schemas full_completion.

Lemma loop_execute (rest : list App.choice) (w : world) :
  loop (App.opt_e :: rest) w
  = (Ret tt, log w [action_prompt; System (Utils.full_command h full_completion)]).
Proof.
  unfold loop. cbn [App.action_loop]. rewrite shell_set, interaction_set.
  cbn [andb]. unfold bind. rewrite emit_log. fold action_prompt.
  unfold Utils.run_command. rewrite emit_log, log_log. reflexivity.
Qed.

Lemma loop_execute_y (rest : list App.choice) (w : world) :
  loop (App.opt_y :: rest) w
  = (Ret tt, log w [action_prompt; System (Utils.full_command h full_completion)]).
Proof.
  unfold loop. cbn [App.action_loop]. rewrite shell_set, interaction_set.
  cbn [andb]. unfold bind. rewrite emit_log. fold action_prompt.
  unfold Utils.run_command. rewrite emit_log, log_log. reflexivity.
Qed.

Lemma loop_abort (rest : list App.choice) (w : world) :
  loop (App.opt_a :: rest) w = (Ret tt, log w [action_prompt]).
Proof.
  unfold loop. cbn [App.action_loop]. rewrite shell_set, interaction_set.
  cbn [andb]. unfold bind. rewrite emit_log. reflexivity.
Qed.

Lemma loop_describe (descriptor : SystemRole) (text : str)
    (rest : list App.choice) (w : world) :
  storage w !! default_file Role.DESCRIBE_SHELL = Some descriptor ->
  respond (trace w ++ [action_prompt])
          (describe_request descriptor ar function_schemas full_completion)
  = Ret text ->
  loop (App.opt_d :: rest) w
  = loop rest
      (log w [action_prompt;
              Completion (describe_request descriptor ar function_schemas full_completion)]).
Proof.
  intros Hrec Hresp. unfold loop. cbn [App.action_loop].
  rewrite shell_set, interaction_set. cbn [andb].
  unfold bind at 1. rewrite emit_log. fold action_prompt.
  unfold bind at 1. unfold Role.get_role.
  rewrite (get_present _ descriptor) by exact Hrec.
  unfold bind at 1. unfold App.handle, App.mk_request. rewrite emit_log, trace_log.
  rewrite Hresp, log_log. reflexivity.
Qed.

(** The ways a describe round does not come back to the prompt: the
    descriptor role is gone from the directory, or the provider raises. *)
Lemma loop_describe_no_role (rest : list App.choice) (w : world) :
  storage w !! default_file Role.DESCRIBE_SHELL = None ->
  loop (App.opt_d :: rest) w
  = (Raise (BadArgumentUsage
              (py "Role " ++ dquote ++ Role.value Role.DESCRIBE_SHELL ++ dquote
               ++ py " not found.")),
     log w [action_prompt]).
Proof.
  intros Hrec. unfold loop. cbn [App.action_loop].
  rewrite shell_set, interaction_set. cbn [andb].
  unfold bind at 1. rewrite emit_log. fold action_prompt.
  unfold bind at 1. unfold Role.get_role, Role.get.
  rewrite storage_log, Hrec. reflexivity.
Qed.

Lemma loop_describe_raises (descriptor : SystemRole) (x : exn)
    (rest : list App.choice) (w : world) :
  storage w !! default_file Role.DESCRIBE_SHELL = Some descriptor ->
  respond (trace w ++ [action_prompt])
          (describe_request descriptor ar function_schemas full_completion)
  = Raise x ->
  loop (App.opt_d :: rest) w
  = (Raise x,
     log w [action_prompt;
            Completion (describe_request descriptor ar function_schemas full_completion)]).
Proof.
  intros Hrec Hresp. unfold loop. cbn [App.action_loop].
  rewrite shell_set, interaction_set. cbn [andb].
  unfold bind at 1. rewrite emit_log. fold action_prompt.
  unfold bind at 1. unfold Role.get_role.
  rewrite (get_present _ descriptor) by exact Hrec.
  unfold bind at 1. unfold App.handle, App.mk_request. rewrite emit_log, trace_log.
  rewrite Hresp, log_log. reflexivity.
Qed.

(** At the end of the input the prompt raises [Abort]. *)
Lemma loop_end_of_input (w : world) :
  loop [] w = (Raise Abort, log w [action_prompt]).
Proof.
  unfold loop. cbn [App.action_loop]. rewrite shell_set, interaction_set.
  cbn [andb]. unfold bind. rewrite emit_log. reflexivity.
Qed.

Lemma loop_describe_rounds (descriptor : SystemRole) (n : nat)
    (rest : list App.choice) (w : world) :
  (forall tr, exists text,
      respond tr (describe_request descriptor ar function_schemas full_completion)
      = Ret text) ->
  storage w !! default_file Role.DESCRIBE_SHELL = Some descriptor ->
  loop (repeat App.opt_d n ++ rest) w
  = loop rest
      (log w (describe_rounds n
                (describe_request descriptor ar function_schemas full_completion))).
Proof.
  intros Hresp. revert w. induction n as [|n IH]; intros w Hrec.
  - unfold describe_rounds. simpl. rewrite log_nil. reflexivity.
  - destruct (Hresp (trace w ++ [action_prompt])) as [text Ht].
    cbn [repeat app]. rewrite (loop_describe descriptor text _ w Hrec Ht).
    rewrite IH by exact Hrec.
    rewrite log_log. reflexivity.
Qed.

End ActionLoop.

(** C4: in the loop (shell mode, interaction on), with the descriptor role
    on record and a provider that answers the describe request:
    any number [n] of [d] choices sends [n] requests, one per choice, each
    through the default handler under the descriptor role with the held
    command as the prompt and the model, temperature, top_p, caching and
    function schemas of the invocation, and the loop goes on to the next
    choice; [e] or [y] then hands the held command to the executor once and
    the loop ends, whatever follows; [a] ends it with nothing run. *)
Theorem C4_action_loop (h : host) (respond : list event -> request -> res str)
    (ar : App.args) (function_schemas : option (list str)) (command : str)
    (descriptor : SystemRole) :
  App.shell ar = true ->
  App.interaction ar = true ->
  (forall tr, exists text,
      respond tr (describe_request descriptor ar function_schemas command) = Ret text) ->
  forall (n : nat) (rest : list App.choice) (w : world),
    storage w !! default_file Role.DESCRIBE_SHELL = Some descriptor ->
    App.action_loop h respond ar function_schemas command (repeat App.opt_d n ++ rest) w
    = App.action_loop h respond ar function_schemas command rest
        (log w (describe_rounds n (describe_request descriptor ar function_schemas command)))
    /\ App.action_loop h respond ar function_schemas command
         (repeat App.opt_d n ++ App.opt_e :: rest) w
       = (Ret tt,
          log w (describe_rounds n (describe_request descriptor ar function_schemas command)
                 ++ [action_prompt; System (Utils.full_command h command)]))
    /\ App.action_loop h respond ar function_schemas command
         (repeat App.opt_d n ++ App.opt_y :: rest) w
       = (Ret tt,
          log w (describe_rounds n (describe_request descriptor ar function_schemas command)
                 ++ [action_prompt; System (Utils.full_command h command)]))
    /\ App.action_loop h respond ar function_schemas command
         (repeat App.opt_d n ++ App.opt_a :: rest) w
       = (Ret tt,
          log w (describe_rounds n (describe_request descriptor ar function_schemas command)
                 ++ [action_prompt])).
Proof.
  intros Hs Hi Hresp n rest w Hrec.
  repeat split.
  - apply loop_describe_rounds; assumption.
  - rewrite (loop_describe_rounds h respond ar function_schemas command Hs Hi
               descriptor n _ w Hresp Hrec).
    rewrite loop_execute by assumption. rewrite log_log. reflexivity.
  - rewrite (loop_describe_rounds h respond ar function_schemas command Hs Hi
               descriptor n _ w Hresp Hrec).
    rewrite loop_execute_y by assumption. rewrite log_log. reflexivity.
  - rewrite (loop_describe_rounds h respond ar function_schemas command Hs Hi
               descriptor n _ w Hresp Hrec).
    rewrite loop_abort by assumption. rewrite log_log. reflexivity.
Qed.

Lemma C4_action_loop_witness :
  App.action_loop Sample.linux Sample.echo_ok Sample.shell_args None (py "ls -la")
    (repeat App.opt_d 1 ++ App.opt_e :: [App.opt_a])
    (set_storage (insert (default_file Role.DESCRIBE_SHELL)
                         (default_record Role.DESCRIBE_SHELL)) Sample.empty_world)
  = (Ret tt,
     log (set_storage (insert (default_file Role.DESCRIBE_SHELL)
                              (default_record Role.DESCRIBE_SHELL)) Sample.empty_world)
         (describe_rounds 1
            (describe_request (default_record Role.DESCRIBE_SHELL) Sample.shell_args
                              None (py "ls -la"))
          ++ [action_prompt; System (Utils.full_command Sample.linux (py "ls -la"))])).
Proof.
  refine (proj1 (proj2 (C4_action_loop Sample.linux Sample.echo_ok Sample.shell_args None
                          (py "ls -la") (default_record Role.DESCRIBE_SHELL)
                          _ _ _ 1%nat [App.opt_a] _ _))).
  - reflexivity.
  - reflexivity.
  - intros tr. exists (py "ok"). reflexivity.
  - vm_compute. reflexivity.
Defined.

(** The loop is not entered without shell mode or with interaction off. *)
Lemma action_loop_not_entered (h : host) (respond : list event -> request -> res str)
    (ar : App.args) (function_schemas : option (list str)) (command : str)
    (keys : list App.choice) (w : world) :
  App.shell ar && App.interaction ar = false ->
  App.action_loop h respond ar function_schemas command keys w = (Ret tt, w).
Proof. intros H. destruct keys; simpl; rewrite H; reflexivity. Qed.

(** * The executor *)

(** C8: [run_command] hands one string to [os.system].  Off Windows it is
    the value of SHELL, or /bin/sh when SHELL is unset, then " -c ", then
    the command quoted by [shlex.quote].  On Windows it is the
    powershell.exe line exactly when PSModulePath, split on the path
    separator, has three segments or more, and the cmd.exe /c line exactly
    when it has fewer. *)
Theorem C8_run_command (h : host) (command : str) (w : world) :
  Utils.run_command h command w = (Ret tt, log w [System (Utils.full_command h command)])
  /\ (platform_system h <> py "Windows" ->
      Utils.full_command h command
      = match environ h !! py "SHELL" with
        | Some shell => shell
        | None => py "/bin/sh"
        end ++ py " -c " ++ Utils.quote command)
  /\ (platform_system h = py "Windows" ->
      ((3 <= length (split (pathsep h) (getenv h (py "PSModulePath") [])))%nat
       <-> Utils.full_command h command
           = py "powershell.exe -Command " ++ dquote ++ command ++ dquote)
      /\ ((length (split (pathsep h) (getenv h (py "PSModulePath") [])) < 3)%nat
          <-> Utils.full_command h command
              = py "cmd.exe /c " ++ dquote ++ command ++ dquote)).
Proof.
  split; [reflexivity|]. unfold Utils.full_command, str_eqb. split.
  - intros Hp. rewrite bool_decide_eq_false_2 by exact Hp. reflexivity.
  - intros Hp. rewrite bool_decide_eq_true_2 by exact Hp.
    destruct (3 <=? length (split (pathsep h) (getenv h (py "PSModulePath") [])))%nat eqn:Hl.
    + apply Nat.leb_le in Hl. split; split; try reflexivity; try (intros _; exact Hl).
      * intros Hlt. lia.
      * intros E. apply (f_equal (hd 0)) in E. vm_compute in E. discriminate.
    + apply Nat.leb_gt in Hl. split; split; try reflexivity; try (intros _; exact Hl).
      * intros Hle. lia.
      * intros E. apply (f_equal (hd 0)) in E. vm_compute in E. discriminate.
Qed.

Lemma C8_run_command_witness :
  Utils.full_command Sample.linux (py "ls -la") = py "/bin/bash -c 'ls -la'"
  /\ Utils.full_command Sample.windows (py "dir")
     = py "powershell.exe -Command " ++ dquote ++ py "dir" ++ dquote.
Proof.
  split.
  - rewrite (proj1 (proj2 (C8_run_command Sample.linux (py "ls -la") Sample.empty_world))).
    + vm_compute. reflexivity.
    + vm_compute. discriminate.
  - apply (proj1 (proj2 (proj2 (C8_run_command Sample.windows (py "dir") Sample.empty_world))
                        ltac:(vm_compute; reflexivity))).
    vm_compute. lia.
Defined.

Lemma safe_is_plain (c : N) :
  Utils.is_safe c = true ->
  Sh.is_blank c = false /\ (c =? 39) = false /\ (c =? 34) = false /\ Sh.is_meta c = false.
Proof.
  unfold Utils.is_safe, Sh.is_blank, Sh.is_meta. intros H.
  repeat rewrite ?orb_true_iff, ?andb_true_iff, ?N.leb_le, ?N.eqb_eq in H.
  repeat rewrite ?orb_false_iff, ?N.eqb_neq. lia.
Qed.

Lemma words_bare_safe (s cur : str) :
  forallb Utils.is_safe s = true ->
  Sh.words_from Sh.Bare (Some cur) s = Some [cur ++ s].
Proof.
  revert cur. induction s as [|c s IH]; intros cur H.
  - rewrite app_nil_r. reflexivity.
  - cbn [forallb] in H. apply andb_true_iff in H as [Hc Hs].
    destruct (safe_is_plain c Hc) as (Hb & Hq & Hd & Hm).
    cbn [Sh.words_from Sh.so_far]. rewrite Hb, Hq, Hd, Hm.
    rewrite (IH _ Hs), <- app_assoc. reflexivity.
Qed.

Lemma words_single_body (s cur rest : str) :
  Sh.words_from Sh.Single (Some cur)
    (flat_map (fun c => if c =? 39
                        then squote ++ dquote ++ squote ++ dquote ++ squote
                        else [c]) s ++ rest)
  = Sh.words_from Sh.Single (Some (cur ++ s)) rest.
Proof.
  revert cur. induction s as [|c s IH]; intros cur.
  - rewrite app_nil_r. reflexivity.
  - cbn [flat_map]. destruct (c =? 39) eqn:E.
    + apply N.eqb_eq in E. subst c.
      change ((squote ++ dquote ++ squote ++ dquote ++ squote)
              ++ flat_map (fun c => if c =? 39
                                    then squote ++ dquote ++ squote ++ dquote ++ squote
                                    else [c]) s)
        with (39 :: 34 :: 39 :: 34 :: 39
              :: flat_map (fun c => if c =? 39
                                    then squote ++ dquote ++ squote ++ dquote ++ squote
                                    else [c]) s).
      cbn [app Sh.words_from Sh.so_far N.eqb Pos.eqb orb Sh.is_blank Sh.is_meta].
      rewrite IH, <- app_assoc. reflexivity.
    + cbn [app Sh.words_from Sh.so_far]. rewrite E, IH, <- app_assoc. reflexivity.
Qed.

(** A shell reads what [shlex.quote] returns as one word, the string that
    was quoted. *)
Lemma quote_is_one_word (s : str) : Sh.words (Utils.quote s) = Some [s].
Proof.
  unfold Sh.words, Utils.quote. destruct s as [|c s]; [reflexivity|].
  destruct (forallb Utils.is_safe (c :: s)) eqn:E.
  - cbn [forallb] in E. apply andb_true_iff in E as [Hc Hs].
    destruct (safe_is_plain c Hc) as (Hb & Hq & Hd & Hm).
    cbn [Sh.words_from Sh.so_far]. rewrite Hb, Hq, Hd, Hm.
    apply (words_bare_safe s [c] Hs).
  - change (squote ++ ?x) with (39 :: x).
    cbn [Sh.words_from Sh.so_far Sh.is_blank N.eqb Pos.eqb orb].
    rewrite words_single_body. reflexivity.
Qed.

(** * Further properties of the role registry *)

Lemma file_path_inj (n m : str) : Role._file_path n = Role._file_path m -> n = m.
Proof. unfold Role._file_path. apply app_inv_tail. Qed.

(** What [_save] may do to the directory: nothing, or write its own record. *)
Lemma save_storage (self : SystemRole) (w : world) :
  (fst (Role._save self w) = Ret tt
   /\ storage (snd (Role._save self w))
      = <[Role._file_path (name self) := {| name := name self; role := ROLE_TEMPLATE |}]>
          (storage w))
  \/ (fst (Role._save self w) = Raise Abort
      /\ storage (snd (Role._save self w)) = storage w
      /\ is_Some (storage w !! Role._file_path (name self))).
Proof.
  destruct (storage w !! Role._file_path (name self)) as [record|] eqn:E.
  - destruct (save_taken self record w E) as (w' & Hs & Hst).
    rewrite Hs. cbn [fst snd]. rewrite Hst.
    destruct (confirms w) as [|[] rest]; [right|left|right]; eauto.
  - rewrite (save_fresh self w E). left. split; reflexivity.
Qed.

(** X1: once [_save] has returned for a role whose name is a plain file
    name, [get] of the same name succeeds and returns the record that was
    written, the role's name with the formatted template as its body; every
    other file is as it was. *)
Theorem X1_save_then_get (self : SystemRole) (w : world) :
  FileName.plain (name self) = true ->
  fst (Role._save self w) = Ret tt ->
  Role.get (name self) (snd (Role._save self w))
  = (Ret {| name := name self; role := ROLE_TEMPLATE |}, snd (Role._save self w))
  /\ (forall f : str,
        f <> Role._file_path (name self) ->
        storage (snd (Role._save self w)) !! f = storage w !! f).
Proof.
  intros _ Hok. destruct (save_storage self w) as [[_ Hst]|[Hab _]]; [|congruence].
  split.
  - apply get_present. rewrite Hst. apply lookup_insert_eq.
  - intros f Hf. rewrite Hst. apply lookup_insert_ne. congruence.
Qed.

Lemma X1_save_then_get_witness :
  Role.get (py "pirate")
    (snd (Role._save {| name := py "pirate"; role := py "Arr" |} Sample.empty_world))
  = (Ret {| name := py "pirate"; role := ROLE_TEMPLATE |},
     snd (Role._save {| name := py "pirate"; role := py "Arr" |} Sample.empty_world)).
Proof.
  apply (proj1 (X1_save_then_get {| name := py "pirate"; role := py "Arr" |}
                  Sample.empty_world
                  ltac:(vm_compute; reflexivity) ltac:(vm_compute; reflexivity))).
Defined.

(** X2: saving over an existing record asks once; unless the answer is yes
    (a no, or the end of the input) [_save] raises [Abort] and the directory
    is exactly as it was, the old record included. *)
Theorem X2_save_refused_keeps_record (self record : SystemRole) (w : world) :
  storage w !! Role._file_path (name self) = Some record ->
  hd false (confirms w) = false ->
  fst (Role._save self w) = Raise Abort
  /\ storage (snd (Role._save self w)) = storage w
  /\ trace (snd (Role._save self w))
     = trace w ++ [Confirm (py "Role " ++ dquote ++ name self ++ dquote
                            ++ py " already exists, overwrite it?")].
Proof.
  intros H Hno. unfold Role._save, Role._save_with, Role._exists, bind, ret,
    typer_confirm_abort, bind, emit.
  rewrite H. cbn [storage confirms texts pipe trace].
  destruct (confirms w) as [|[] rest]; [|discriminate Hno|]; repeat split.
Qed.

Lemma X2_save_refused_keeps_record_witness :
  fst (Role._save {| name := py "pirate"; role := py "new text" |}
         (Sample.with_pirate [false])) = Raise Abort
  /\ storage (snd (Role._save {| name := py "pirate"; role := py "new text" |}
                     (Sample.with_pirate [false])))
     = storage (Sample.with_pirate [false]).
Proof.
  destruct (X2_save_refused_keeps_record
              {| name := py "pirate"; role := py "new text" |} Sample.pirate
              (Sample.with_pirate [false])
              ltac:(vm_compute; reflexivity) ltac:(reflexivity)) as (H1 & H2 & _).
  split; assumption.
Defined.

(** X3: with the record there and a yes to the question, [delete] removes
    it: [get] of that name then fails as for a role that never was, every
    other file is as it was, and one answer was used. *)
Theorem X3_delete_then_get (self record : SystemRole) (rest : list bool) (w : world) :
  storage w !! Role._file_path (name self) = Some record ->
  confirms w = true :: rest ->
  fst (Role.delete self w) = Ret tt
  /\ fst (Role.get (name self) (snd (Role.delete self w)))
     = Raise (BadArgumentUsage
                (py "Role " ++ dquote ++ name self ++ dquote ++ py " not found."))
  /\ (forall f : str,
        f <> Role._file_path (name self) ->
        storage (snd (Role.delete self w)) !! f = storage w !! f)
  /\ confirms (snd (Role.delete self w)) = rest.
Proof.
  intros H Hyes. unfold Role.delete, Role._exists, Role.unlink, bind, ret,
    typer_confirm_abort, bind, emit.
  rewrite H. cbn [storage confirms texts pipe trace]. rewrite Hyes.
  cbn [storage confirms texts pipe trace]. rewrite H.
  cbn [fst snd]. unfold Role.get, set_storage. cbn [storage confirms].
  rewrite lookup_delete_eq. repeat split.
  intros f Hf. apply lookup_delete_ne. congruence.
Qed.

Lemma X3_delete_then_get_witness :
  fst (Role.delete Sample.pirate (Sample.with_pirate [true])) = Ret tt
  /\ fst (Role.get (py "pirate") (snd (Role.delete Sample.pirate (Sample.with_pirate [true]))))
     = Raise (BadArgumentUsage
                (py "Role " ++ dquote ++ py "pirate" ++ dquote ++ py " not found.")).
Proof.
  destruct (X3_delete_then_get Sample.pirate Sample.pirate [] (Sample.with_pirate [true])
              ltac:(vm_compute; reflexivity) ltac:(reflexivity)) as (H1 & H2 & _).
  split; assumption.
Defined.

(** X4: with the record there and anything but a yes (a no, or the end of
    the input), [delete] raises [Abort] and removes nothing. *)
Theorem X4_delete_refused_keeps_record (self record : SystemRole) (w : world) :
  storage w !! Role._file_path (name self) = Some record ->
  hd false (confirms w) = false ->
  fst (Role.delete self w) = Raise Abort
  /\ storage (snd (Role.delete self w)) = storage w.
Proof.
  intros H Hno. unfold Role.delete, Role._exists, Role.unlink, bind, ret,
    typer_confirm_abort, bind, emit.
  rewrite H. cbn [storage confirms texts pipe trace].
  destruct (confirms w) as [|[] rest]; [|discriminate Hno|]; split; reflexivity.
Qed.

Lemma X4_delete_refused_keeps_record_witness :
  fst (Role.delete Sample.pirate (Sample.with_pirate [])) = Raise Abort
  /\ storage (snd (Role.delete Sample.pirate (Sample.with_pirate [])))
     = storage (Sample.with_pirate []).
Proof.
  apply (X4_delete_refused_keeps_record Sample.pirate Sample.pirate (Sample.with_pirate [])).
  - vm_compute. reflexivity.
  - reflexivity.
Defined.

(** What [delete] may do to the directory: nothing, or remove its own file. *)
Lemma delete_storage (self : SystemRole) (w : world) :
  storage (snd (Role.delete self w)) = storage w
  \/ storage (snd (Role.delete self w))
     = base.delete (Role._file_path (name self)) (storage w).
Proof.
  destruct (storage w !! Role._file_path (name self)) as [record|] eqn:E.
  - destruct (delete_present self record w E) as (w' & Hd & _ & Hst).
    rewrite Hd. cbn [snd]. rewrite Hst.
    destruct (confirms w) as [|[] rest]; eauto.
  - unfold Role.delete, Role._exists, Role.unlink, bind, ret.
    rewrite E. cbv beta iota. rewrite E. left. reflexivity.
Qed.

(** X5: [create] with a plain file name that is not taken asks for the
    description, writes the record under the name, touches no other file
    and leaves the program with [Exit]; with no name, or an empty one, it
    does nothing and returns. *)
Theorem X5_create_new_role (n t : str) (rest : list str) (w : world) :
  truthy n = true ->
  FileName.plain n = true ->
  storage w !! Role._file_path n = None ->
  texts w = t :: rest ->
  truthy t = true ->
  Role.create (Some n) w
  = (Raise Exit,
     {| storage := <[Role._file_path n := {| name := n; role := ROLE_TEMPLATE |}]> (storage w);
        confirms := confirms w;
        texts := rest;
        pipe := pipe w;
        trace := trace w ++ [Prompt (py "Enter role description")] |})
  /\ Role.create None w = (Ret tt, w)
  /\ Role.create (Some []) w = (Ret tt, w).
Proof.
  intros Hn _ Hfree Ht _. split; [|split; reflexivity].
  unfold Role.create, Role.option_callback. rewrite Hn.
  unfold bind at 1. unfold bind at 1. unfold typer_prompt, bind, emit.
  cbn [storage confirms texts pipe trace]. rewrite Ht.
  unfold Role.init, ret.
  rewrite save_fresh by (cbn [storage name]; exact Hfree).
  reflexivity.
Qed.

Lemma X5_create_new_role_witness :
  fst (Role.create (Some (py "poet"))
         {| storage := ∅; confirms := []; texts := [py "Answer in verse"];
            pipe := []; trace := [] |}) = Raise Exit.
Proof.
  rewrite (proj1 (X5_create_new_role (py "poet") (py "Answer in verse") []
                    {| storage := ∅; confirms := []; texts := [py "Answer in verse"];
                       pipe := []; trace := [] |}
                    ltac:(reflexivity) ltac:(vm_compute; reflexivity)
                    ltac:(vm_compute; reflexivity) ltac:(reflexivity)
                    ltac:(reflexivity))).
  reflexivity.
Defined.

(** X6: for a plain file name, [show] echoes the stored body of a role
    that is on record and leaves with [Exit]; for one with no record it
    raises the not-found error and echoes nothing; the directory is never
    changed. *)
Theorem X6_show_echoes_stored_body (n : str) (w : world) :
  truthy n = true ->
  FileName.plain n = true ->
  match storage w !! Role._file_path n with
  | Some record => Role.show (Some n) w = (Raise Exit, log w [Echo (role record)])
  | None =>
    Role.show (Some n) w
    = (Raise (BadArgumentUsage (py "Role " ++ dquote ++ n ++ dquote ++ py " not found.")), w)
  end.
Proof.
  intros Hn _. unfold Role.show, Role.option_callback. rewrite Hn.
  unfold bind.
  destruct (storage w !! Role._file_path n) as [record|] eqn:E.
  - rewrite (get_present n record w E). reflexivity.
  - unfold Role.get. rewrite E. reflexivity.
Qed.

Lemma X6_show_echoes_stored_body_witness :
  Role.show (Some (py "pirate")) (Sample.with_pirate [])
  = (Raise Exit, log (Sample.with_pirate []) [Echo (py "old")]).
Proof.
  exact (X6_show_echoes_stored_body (py "pirate") (Sample.with_pirate []) eq_refl
           ltac:(vm_compute; reflexivity)).
Defined.

(** ** Files and the names inside them *)

Lemma well_named_insert (m : gmap str SystemRole) (n body : str) :
  well_named m ->
  well_named (<[Role._file_path n := {| name := n; role := body |}]> m).
Proof.
  intros Hm f r. destruct (decide (Role._file_path n = f)) as [<-|Hne].
  - rewrite lookup_insert_eq. intros [= <-]. reflexivity.
  - rewrite lookup_insert_ne by exact Hne. apply Hm.
Qed.

Lemma well_named_delete (m : gmap str SystemRole) (k : str) :
  well_named m -> well_named (base.delete k m).
Proof.
  intros Hm f r H. apply Hm.
  destruct (decide (k = f)) as [<-|Hne].
  - rewrite lookup_delete_eq in H. discriminate.
  - rewrite lookup_delete_ne in H by exact Hne. exact H.
Qed.

Lemma well_named_put_absent (m : gmap str SystemRole) (n body : str) :
  well_named m ->
  well_named (put_absent (Role._file_path n) {| name := n; role := body |} m).
Proof.
  intros Hm. unfold put_absent.
  destruct (m !! Role._file_path n); [exact Hm|]. apply well_named_insert. exact Hm.
Qed.

(** What [create] may do to the directory: nothing, or write the record of
    the name it was given. *)
Lemma create_storage (v : option str) (w : world) :
  storage (snd (Role.create v w)) = storage w
  \/ exists n, v = Some n
               /\ storage (snd (Role.create v w))
                  = <[Role._file_path n := {| name := n; role := ROLE_TEMPLATE |}]> (storage w).
Proof.
  unfold Role.create, Role.option_callback.
  destruct v as [n|]; [|left; reflexivity].
  destruct (truthy n); [|left; reflexivity].
  unfold bind at 1. unfold bind at 1. unfold typer_prompt, bind, emit.
  cbn [storage confirms texts pipe trace].
  destruct (texts w) as [|t rest]; [left; reflexivity|].
  unfold Role.init, ret.
  match goal with
  | |- context [Role._save ?self ?w1] =>
    destruct (save_storage self w1) as [[Hr Hst]|[Hr [Hst _]]];
      destruct (Role._save self w1) as [r w2]; cbn [fst snd] in *; subst r
  end.
  - right. exists n. split; [reflexivity|]. exact Hst.
  - left. exact Hst.
Qed.

Lemma create_defaults_well_named (h : host) (w : world) :
  well_named (storage w) -> well_named (storage (snd (Role.create_defaults h w))).
Proof.
  intros Hw. rewrite create_defaults_run. cbn [snd]. unfold set_storage.
  cbn [storage]. repeat apply well_named_put_absent. exact Hw.
Qed.

(** X7: if every role file holds a record named after the file, that is
    still so after [_save], [delete] and [create] with a plain file name
    and after [create_defaults], however they ended. *)
Theorem X7_files_stay_well_named (w : world) :
  well_named (storage w) ->
  (forall self : SystemRole,
     FileName.plain (name self) = true ->
     well_named (storage (snd (Role._save self w))))
  /\ (forall self : SystemRole,
        FileName.plain (name self) = true ->
        well_named (storage (snd (Role.delete self w))))
  /\ (forall v : option str,
        (forall n, v = Some n -> FileName.plain n = true) ->
        well_named (storage (snd (Role.create v w))))
  /\ (forall h : host, well_named (storage (snd (Role.create_defaults h w)))).
Proof.
  intros Hw. split; [|split; [|split]].
  - intros self _. destruct (save_storage self w) as [[_ ->]|[_ [-> _]]].
    + apply well_named_insert. exact Hw.
    + exact Hw.
  - intros self _. destruct (delete_storage self w) as [->| ->].
    + exact Hw.
    + apply well_named_delete. exact Hw.
  - intros v _. destruct (create_storage v w) as [->|(n & _ & ->)].
    + exact Hw.
    + apply well_named_insert. exact Hw.
  - intros h. apply create_defaults_well_named. exact Hw.
Qed.

Lemma pirate_world_well_named (answers : list bool) :
  well_named (storage (Sample.with_pirate answers)).
Proof.
  intros f r H. unfold Sample.with_pirate in H. cbn [storage] in H.
  apply lookup_singleton_Some in H as [<- <-]. vm_compute. reflexivity.
Defined.

Lemma X7_files_stay_well_named_witness :
  well_named (storage (snd (Role._save {| name := py "poet"; role := py "Answer in verse" |}
                              (Sample.with_pirate []))))
  /\ well_named (storage (snd (Role.create (Some (py "poet")) (Sample.with_pirate []))))
  /\ well_named (storage (snd (Role.create_defaults Sample.linux (Sample.with_pirate [])))).
Proof.
  destruct (X7_files_stay_well_named (Sample.with_pirate []) (pirate_world_well_named []))
    as (Hsave & _ & Hcreate & Hdefaults).
  split; [apply Hsave; vm_compute; reflexivity|].
  split; [|apply Hdefaults].
  apply Hcreate. intros n [= <-]. vm_compute. reflexivity.
Defined.

(** X8: in a directory where every file holds a record named after it,
    [get] of a plain file name returns a role of that name, or fails. *)
Theorem X8_get_returns_asked_name (n : str) (r : SystemRole) (w : world) :
  well_named (storage w) ->
  FileName.plain n = true ->
  fst (Role.get n w) = Ret r ->
  name r = n.
Proof.
  intros Hw _. unfold Role.get.
  destruct (storage w !! Role._file_path n) as [record|] eqn:E; [|discriminate].
  cbn [Role.init ret fst]. intros [= <-]. cbn [name].
  symmetry. apply file_path_inj. apply (Hw _ _ E).
Qed.

Lemma X8_get_returns_asked_name_witness :
  well_named (storage (Sample.with_pirate []))
  /\ fst (Role.get (py "pirate") (Sample.with_pirate [])) = Ret Sample.pirate
  /\ name Sample.pirate = py "pirate".
Proof.
  split; [apply pirate_world_well_named|].
  split; [vm_compute; reflexivity|].
  apply (X8_get_returns_asked_name (py "pirate") Sample.pirate (Sample.with_pirate [])).
  - apply pirate_world_well_named.
  - vm_compute. reflexivity.
  - vm_compute. reflexivity.
Defined.

(** Without the invariant the name is the one in the file, not the one
    asked for. *)
Example get_returns_stored_name :
  fst (Role.get (py "a")
         (set_storage (insert (py "a.json") {| name := py "b"; role := [] |})
                      Sample.empty_world))
  = Ret {| name := py "b"; role := [] |}.
Proof. vm_compute. reflexivity. Qed.

(** ** The defaults, run again and read back *)

Lemma put_absent_present (k : str) (v : SystemRole) (m : gmap str SystemRole) :
  is_Some (m !! k) -> put_absent k v m = m.
Proof. intros [r H]. unfold put_absent. rewrite H. reflexivity. Qed.

Lemma set_storage_fixed (f : gmap str SystemRole -> gmap str SystemRole) (w : world) :
  f (storage w) = storage w -> set_storage f w = w.
Proof. intros H. destruct w. unfold set_storage. cbn [storage] in *. rewrite H. reflexivity. Qed.

Lemma put_absent_four_present (k1 k2 k3 k4 : str) (v1 v2 v3 v4 : SystemRole)
    (m : gmap str SystemRole) :
  is_Some (m !! k1) -> is_Some (m !! k2) -> is_Some (m !! k3) -> is_Some (m !! k4) ->
  put_absent k4 v4 (put_absent k3 v3 (put_absent k2 v2 (put_absent k1 v1 m))) = m.
Proof.
  intros H1 H2 H3 H4.
  rewrite (put_absent_present k1 v1 m H1), (put_absent_present k2 v2 m H2),
    (put_absent_present k3 v3 m H3).
  apply put_absent_present. exact H4.
Qed.

(** X9: [create_defaults] is idempotent: run once more, on the same host or
    on another, it returns and leaves the whole world as the first run left
    it. *)
Theorem X9_create_defaults_idempotent (h1 h2 : host) (w : world) :
  Role.create_defaults h2 (snd (Role.create_defaults h1 w))
  = (Ret tt, snd (Role.create_defaults h1 w)).
Proof.
  pose proof (create_defaults_present h1 w Role.DEFAULT) as H1.
  pose proof (create_defaults_present h1 w Role.SHELL) as H2.
  pose proof (create_defaults_present h1 w Role.DESCRIBE_SHELL) as H3.
  pose proof (create_defaults_present h1 w Role.CODE) as H4.
  generalize dependent (snd (Role.create_defaults h1 w)). intros w1 H1 H2 H3 H4.
  rewrite (create_defaults_run h2). f_equal. apply set_storage_fixed.
  exact (put_absent_four_present _ _ _ _ _ _ _ _ _ H1 H2 H3 H4).
Qed.

(** X10: after [create_defaults], [check_get] fails for no combination of
    the three flags and leaves the world alone; the role it returns is the
    one stored for the first flag set in the order shell, describe_shell,
    code, or for the default role when none is set, and it carries that
    built-in's name when every file held a record named after it. *)
Theorem X10_check_get_after_create_defaults (h : host) (w : world)
    (shell describe_shell code : bool) :
  exists r : SystemRole,
    Role.check_get shell describe_shell code (snd (Role.create_defaults h w))
    = (Ret r, snd (Role.create_defaults h w))
    /\ storage (snd (Role.create_defaults h w))
       !! default_file (if shell then Role.SHELL
                        else if describe_shell then Role.DESCRIBE_SHELL
                        else if code then Role.CODE else Role.DEFAULT)
       = Some r
    /\ (well_named (storage w) ->
        name r = Role.value (if shell then Role.SHELL
                             else if describe_shell then Role.DESCRIBE_SHELL
                             else if code then Role.CODE else Role.DEFAULT)).
Proof.
  set (d := if shell then Role.SHELL
            else if describe_shell then Role.DESCRIBE_SHELL
            else if code then Role.CODE else Role.DEFAULT).
  destruct (create_defaults_present h w d) as [r Hr].
  exists r. split; [|split].
  - assert (Role.check_get shell describe_shell code = Role.get (Role.value d)) as ->.
    { unfold Role.check_get, d. destruct shell, describe_shell, code; reflexivity. }
    apply get_present. exact Hr.
  - exact Hr.
  - intros Hw. apply file_path_inj. symmetry.
    apply (create_defaults_well_named h w Hw _ _ Hr).
Qed.

Lemma X10_check_get_after_create_defaults_witness :
  exists r : SystemRole,
    Role.check_get true false false (snd (Role.create_defaults Sample.linux Sample.empty_world))
    = (Ret r, snd (Role.create_defaults Sample.linux Sample.empty_world))
    /\ name r = Role.value Role.SHELL.
Proof.
  destruct (X10_check_get_after_create_defaults Sample.linux Sample.empty_world
              true false false) as (r & H1 & _ & H3).
  exists r. split; [exact H1|]. apply H3.
  intros f x H. unfold Sample.empty_world in H. cbn [storage] in H.
  rewrite lookup_empty in H. discriminate.
Defined.

(** * The names of the shell and of the system *)

Lemma basename_from_split (cur s : str) :
  ~ In 47 cur ->
  exists dir : str,
    cur ++ s = dir ++ basename_from cur s
    /\ ~ In 47 (basename_from cur s)
    /\ (dir = [] \/ exists d, dir = d ++ [47]).
Proof.
  revert cur. induction s as [|c s IH]; intros cur Hcur.
  - exists []. cbn [basename_from]. rewrite app_nil_r. auto.
  - cbn [basename_from]. destruct (c =? 47) eqn:E.
    + apply N.eqb_eq in E. subst c.
      destruct (IH [] ltac:(intros [])) as (dir & Hs & Hb & Hd).
      cbn [app] in Hs. exists (cur ++ 47 :: dir).
      split; [rewrite <- app_assoc; cbn [app]; do 2 f_equal; exact Hs|].
      split; [exact Hb|].
      right. destruct Hd as [->|[d ->]].
      * exists cur. reflexivity.
      * exists (cur ++ 47 :: d). rewrite <- app_assoc. reflexivity.
    + apply N.eqb_neq in E.
      destruct (IH (cur ++ [c])) as (dir & Hs & Hb & Hd).
      { rewrite in_app_iff. intros [H|[H|[]]]; [exact (Hcur H)|congruence]. }
      exists dir. rewrite <- app_assoc in Hs. cbn [app] in Hs. auto.
Qed.

Lemma starts_with_refl (s : str) : starts_with s s = true.
Proof. rewrite <- (app_nil_r s) at 2. apply starts_with_app. Qed.

(** X11: with SHELL_NAME left to detection, the shell a role is told about
    is the one [run_command] runs.  On Windows the command line starts with
    the detected name, powershell.exe or cmd.exe.  Elsewhere the detected
    name is the last component of the program that the command line starts
    with: it has no slash, and what precedes it is empty or ends with a
    slash. *)
Theorem X11_shell_name_matches_executor (h : host) (command : str) :
  cfg_SHELL_NAME h = py "auto" ->
  (platform_system h = py "Windows" ->
   starts_with (Role._shell_name h) (Utils.full_command h command) = true
   /\ (Role._shell_name h = py "powershell.exe" \/ Role._shell_name h = py "cmd.exe"))
  /\ (platform_system h <> py "Windows" -> platform_system h <> py "nt" ->
      exists dir : str,
        Utils.full_command h command
        = (dir ++ Role._shell_name h) ++ py " -c " ++ Utils.quote command
        /\ ~ In 47 (Role._shell_name h)
        /\ (dir = [] \/ exists d, dir = d ++ [47])).
Proof.
  intros Hauto. unfold Role._shell_name, Utils.full_command, str_eqb.
  rewrite Hauto. rewrite (bool_decide_eq_true_2 (py "auto" = py "auto")) by reflexivity.
  cbn [negb]. split.
  - intros Hp. rewrite !(bool_decide_eq_true_2 _ Hp). cbn [orb].
    destruct (3 <=? length (split (pathsep h) (getenv h (py "PSModulePath") [])))%nat.
    + split; [vm_compute; reflexivity|left; reflexivity].
    + split; [vm_compute; reflexivity|right; reflexivity].
  - intros Hp Hnt. rewrite !(bool_decide_eq_false_2 _ Hp), (bool_decide_eq_false_2 _ Hnt).
    cbn [orb]. unfold basename.
    destruct (basename_from_split [] (getenv h (py "SHELL") (py "/bin/sh")) ltac:(intros []))
      as (dir & Hs & Hb & Hd).
    cbn [app] in Hs. exists dir. rewrite <- Hs. auto.
Qed.

Lemma X11_shell_name_matches_executor_witness :
  exists dir : str,
    Utils.full_command Sample.linux (py "ls")
    = (dir ++ Role._shell_name Sample.linux) ++ py " -c " ++ Utils.quote (py "ls")
    /\ ~ In 47 (Role._shell_name Sample.linux)
    /\ (dir = [] \/ exists d, dir = d ++ [47]).
Proof.
  apply (proj2 (X11_shell_name_matches_executor Sample.linux (py "ls") eq_refl)).
  - vm_compute. discriminate.
  - vm_compute. discriminate.
Defined.

(** What detection gives: the platform's name, and after it a text that
    depends on the platform. *)
Lemma os_name_detected (h : host) :
  cfg_OS_NAME h = py "auto" ->
  Role._os_name h
  = platform_system h
    ++ (if bool_decide (platform_system h = py "Linux")
        then py "/" ++ distro_name_pretty h
        else if bool_decide (platform_system h = py "Windows")
        then py " " ++ platform_release h
        else if bool_decide (platform_system h = py "Darwin")
        then py "/MacOS " ++ platform_mac_ver h
        else []).
Proof.
  intros Hauto. unfold Role._os_name, str_eqb.
  rewrite Hauto. rewrite (bool_decide_eq_true_2 (py "auto" = py "auto")) by reflexivity.
  cbn [negb].
  repeat case_bool_decide;
    try match goal with
        | H : platform_system h = _ |- _ => rewrite H; reflexivity
        end.
  rewrite app_nil_r. reflexivity.
Qed.

(** X12: with OS_NAME left to detection, the name given for the system
    always begins with what [platform.system()] returned: on Linux it is
    followed by a slash and the pretty name of the distribution, on Windows
    by a space and the release, on Darwin by "/MacOS " and the macOS
    version, and any other platform is named as it is. *)
Theorem X12_os_name_begins_with_platform (h : host) :
  cfg_OS_NAME h = py "auto" ->
  starts_with (platform_system h) (Role._os_name h) = true
  /\ (platform_system h = py "Linux"
      -> Role._os_name h = py "Linux/" ++ distro_name_pretty h)
  /\ (platform_system h = py "Windows"
      -> Role._os_name h = py "Windows " ++ platform_release h)
  /\ (platform_system h = py "Darwin"
      -> Role._os_name h = py "Darwin/MacOS " ++ platform_mac_ver h)
  /\ (platform_system h <> py "Linux" -> platform_system h <> py "Windows"
      -> platform_system h <> py "Darwin"
      -> Role._os_name h = platform_system h).
Proof.
  intros Hauto. pose proof (os_name_detected h Hauto) as Hshape.
  split; [rewrite Hshape; apply starts_with_app|].
  repeat split.
  - intros H. rewrite Hshape, H.
    rewrite (bool_decide_eq_true_2 (py "Linux" = py "Linux")) by reflexivity.
    reflexivity.
  - intros H. rewrite Hshape, H.
    rewrite (bool_decide_eq_false_2 (py "Windows" = py "Linux")) by (vm_compute; discriminate).
    rewrite (bool_decide_eq_true_2 (py "Windows" = py "Windows")) by reflexivity.
    reflexivity.
  - intros H. rewrite Hshape, H.
    rewrite (bool_decide_eq_false_2 (py "Darwin" = py "Linux")) by (vm_compute; discriminate).
    rewrite (bool_decide_eq_false_2 (py "Darwin" = py "Windows")) by (vm_compute; discriminate).
    rewrite (bool_decide_eq_true_2 (py "Darwin" = py "Darwin")) by reflexivity.
    reflexivity.
  - intros H1 H2 H3. rewrite Hshape.
    rewrite (bool_decide_eq_false_2 _ H1), (bool_decide_eq_false_2 _ H2),
      (bool_decide_eq_false_2 _ H3).
    apply app_nil_r.
Qed.

Lemma X12_os_name_begins_with_platform_witness :
  starts_with (py "Linux") (Role._os_name Sample.linux) = true
  /\ Role._os_name Sample.linux = py "Linux/" ++ py "Ubuntu 22.04.3 LTS".
Proof.
  destruct (X12_os_name_begins_with_platform Sample.linux eq_refl)
    as (Hprefix & Hlinux & _).
  split; [exact Hprefix|]. exact (Hlinux eq_refl).
Defined.

(** * Further properties of the action loop and of [main] *)

Lemma commands_of_app (a b : list event) :
  commands_of (a ++ b) = commands_of a ++ commands_of b.
Proof.
  induction a as [|ev a IH]; [reflexivity|].
  destruct ev; cbn [app commands_of]; rewrite IH; reflexivity.
Qed.

Lemma requests_of_app (a b : list event) :
  requests_of (a ++ b) = requests_of a ++ requests_of b.
Proof.
  induction a as [|ev a IH]; [reflexivity|].
  destruct ev; cbn [app requests_of]; rewrite IH; reflexivity.
Qed.

(** The loop on any answers, with any directory and any provider. *)
Lemma loop_any_keys (h : host) (respond : list event -> request -> res str)
    (ar : App.args) (function_schemas : option (list str)) (command : str)
    (keys : list App.choice) (w : world) :
  exists evs : list event,
    snd (App.action_loop h respond ar function_schemas command keys w) = log w evs
    /\ Forall (fun q => q = describe_request (persona q) ar function_schemas command)
              (requests_of evs)
    /\ (length (requests_of evs) <= length (List.filter is_d keys))%nat
    /\ (commands_of evs = []
        \/ (commands_of evs = [Utils.full_command h command]
            /\ fst (App.action_loop h respond ar function_schemas command keys w) = Ret tt
            /\ App.shell ar = true /\ App.interaction ar = true
            /\ (In App.opt_e keys \/ In App.opt_y keys))).
Proof.
  destruct (App.shell ar && App.interaction ar) eqn:Hen.
  2:{ rewrite action_loop_not_entered by exact Hen. exists []. rewrite log_nil.
      cbn [snd requests_of commands_of length].
      split; [reflexivity|]. split; [constructor|]. split; [lia|]. left. reflexivity. }
  apply andb_true_iff in Hen as [Hs Hi].
  revert w. induction keys as [|k keys IH]; intros w.
  - rewrite (loop_end_of_input h respond ar function_schemas command Hs Hi).
    exists [action_prompt]. cbn [fst snd requests_of commands_of action_prompt length List.filter is_d].
    split; [reflexivity|]. split; [constructor|]. split; [lia|]. left. reflexivity.
  - destruct k.
    + rewrite (loop_execute h respond ar function_schemas command Hs Hi).
      exists [action_prompt; System (Utils.full_command h command)].
      cbn [fst snd requests_of commands_of action_prompt length].
      split; [reflexivity|]. split; [constructor|]. split; [lia|].
      right. repeat split; try assumption. left. apply in_eq.
    + destruct (storage w !! default_file Role.DESCRIBE_SHELL) as [descriptor|] eqn:Hrec.
      * destruct (respond (trace w ++ [action_prompt])
                    (describe_request descriptor ar function_schemas command))
          as [text|x] eqn:Hresp.
        -- rewrite (loop_describe h respond ar function_schemas command Hs Hi
                      descriptor text keys w Hrec Hresp).
           destruct (IH (log w [action_prompt;
                                Completion (describe_request descriptor ar
                                              function_schemas command)]))
             as (evs & Hw & Hreq & Hlen & Hcmd).
           exists ([action_prompt;
                    Completion (describe_request descriptor ar function_schemas command)]
                   ++ evs).
           rewrite Hw, log_log. split; [reflexivity|].
           cbn [app requests_of commands_of action_prompt List.filter is_d length].
           split; [constructor; [reflexivity|exact Hreq]|].
           split; [lia|].
           destruct Hcmd as [Hc|(Hc & Hr & _ & _ & Hin)]; [left; exact Hc|].
           right. repeat split; try assumption.
           destruct Hin; [left|right]; right; assumption.
        -- rewrite (loop_describe_raises h respond ar function_schemas command Hs Hi
                      descriptor x keys w Hrec Hresp).
           eexists. split; [reflexivity|].
           cbn [fst snd requests_of commands_of action_prompt length List.filter is_d].
           split; [constructor; [reflexivity|constructor]|]. split; [lia|].
           left. reflexivity.
      * rewrite (loop_describe_no_role h respond ar function_schemas command Hs Hi keys w Hrec).
        exists [action_prompt]. cbn [fst snd requests_of commands_of action_prompt length List.filter is_d].
    split; [reflexivity|]. split; [constructor|]. split; [lia|]. left. reflexivity.
    + rewrite (loop_abort h respond ar function_schemas command Hs Hi).
      exists [action_prompt]. cbn [fst snd requests_of commands_of action_prompt length List.filter is_d].
    split; [reflexivity|]. split; [constructor|]. split; [lia|]. left. reflexivity.
    + rewrite (loop_execute_y h respond ar function_schemas command Hs Hi).
      exists [action_prompt; System (Utils.full_command h command)].
      cbn [fst snd requests_of commands_of action_prompt length].
      split; [reflexivity|]. split; [constructor|]. split; [lia|].
      right. repeat split; try assumption. right. apply in_eq.
Qed.

(** X13: whatever the user answers, whatever the directory holds and
    whatever the provider does, the action loop runs at most one command,
    the held one, and only in shell mode with interaction on, on an answer
    e or y, ending normally; every request it sends is a describe request
    for the held command with the arguments of the invocation, and it sends
    no more of them than there are d answers. *)
Theorem X13_action_loop_runs_only_the_held_command (h : host)
    (respond : list event -> request -> res str) (ar : App.args)
    (function_schemas : option (list str)) (command : str)
    (keys : list App.choice) (w : world) :
  exists evs : list event,
    trace (snd (App.action_loop h respond ar function_schemas command keys w))
    = trace w ++ evs
    /\ Forall (fun q => q = describe_request (persona q) ar function_schemas command)
              (requests_of evs)
    /\ (length (requests_of evs) <= length (List.filter is_d keys))%nat
    /\ (commands_of evs = []
        \/ (commands_of evs = [Utils.full_command h command]
            /\ fst (App.action_loop h respond ar function_schemas command keys w) = Ret tt
            /\ App.shell ar = true /\ App.interaction ar = true
            /\ (In App.opt_e keys \/ In App.opt_y keys))).
Proof.
  destruct (loop_any_keys h respond ar function_schemas command keys w)
    as (evs & Hw & Hrest).
  exists evs. rewrite Hw, trace_log. split; [reflexivity|exact Hrest].
Qed.

(** ** Composing effects *)

Lemma adds_ret {A : Type} (P : res A -> list event -> Prop) (a : A) :
  P (Ret a) [] -> adds P (ret a).
Proof.
  intros H w. exists []. cbn [ret fst snd]. rewrite app_nil_r. auto.
Qed.

Lemma adds_raise {A : Type} (P : res A -> list event -> Prop) (x : exn) :
  P (Raise x) [] -> adds P (raise x).
Proof.
  intros H w. exists []. cbn [raise fst snd]. rewrite app_nil_r. auto.
Qed.

Lemma adds_bind {A B : Type} (P : res A -> list event -> Prop)
    (Q : A -> res B -> list event -> Prop) (R : res B -> list event -> Prop)
    (m : M A) (k : A -> M B) :
  adds P m ->
  (forall a, adds (Q a) (k a)) ->
  (forall a e1 r e2, P (Ret a) e1 -> Q a r e2 -> R r (e1 ++ e2)) ->
  (forall x e1, P (Raise x) e1 -> R (Raise x) e1) ->
  adds R (bind m k).
Proof.
  intros Hm Hk Hok Herr w. unfold bind.
  destruct (Hm w) as (e1 & Hs1 & Hc1 & Ht1 & Htr1 & HP).
  destruct (m w) as [[a|x] w1]; cbn [fst snd] in *.
  - destruct (Hk a w1) as (e2 & Hs2 & Hc2 & Ht2 & Htr2 & HQ).
    exists (e1 ++ e2).
    rewrite Hs2, Hc2, Ht2, Htr2, Hs1, Hc1, Ht1, Htr1, app_assoc. eauto 10.
  - exists e1. eauto 10.
Qed.

Lemma adds_weaken {A : Type} (P R : res A -> list event -> Prop) (m : M A) :
  adds P m -> (forall r evs, P r evs -> R r evs) -> adds R m.
Proof.
  intros Hm HPR w. destruct (Hm w) as (evs & ? & ? & ? & ? & HP).
  exists evs. eauto 10.
Qed.

Lemma adds_get (n : str) : adds (fun _ evs => evs = []) (Role.get n).
Proof.
  intros w. exists []. unfold Role.get.
  destruct (storage w !! Role._file_path n); cbn [Role.init ret fst snd];
    rewrite app_nil_r; auto.
Qed.

Lemma adds_read_stdin (p : str) :
  adds (fun r evs => evs = [] /\ exists p1, r = Ret p1) (App.read_stdin p).
Proof.
  intros w. exists []. unfold App.read_stdin.
  destruct (App.read_until_sentinel [] (iter_lines (pipe w))) as [stdin rest].
  cbn [fst snd storage confirms texts trace]. rewrite app_nil_r. eauto 10.
Qed.

Lemma adds_handle (respond : list event -> request -> res str) (req : request) :
  adds (fun r evs => evs = [Completion req]
                     /\ forall t, r = Ret t -> exists tr, respond tr req = Ret t)
       (App.handle respond req).
Proof.
  intros w. exists [Completion req]. unfold App.handle. rewrite emit_log.
  cbn [fst snd log storage confirms texts trace]. eauto 10.
Qed.

Lemma adds_get_edited_prompt (h : host) :
  adds (fun _ evs => evs = [System (getenv h (py "EDITOR") (py "vim") ++ py " " ++ tmp_file h)])
       (Utils.get_edited_prompt h).
Proof.
  intros w. eexists. unfold Utils.get_edited_prompt, bind. rewrite emit_log.
  destruct (negb (truthy (edited_text h)));
    cbn [raise ret fst snd log storage confirms texts trace]; auto 10.
Qed.

Lemma adds_action_loop (h : host) (respond : list event -> request -> res str)
    (ar : App.args) (function_schemas : option (list str)) (command : str)
    (keys : list App.choice) :
  adds (fun r evs =>
          commands_of evs = []
          \/ (commands_of evs = [Utils.full_command h command]
              /\ r = Ret tt /\ App.shell ar = true /\ App.interaction ar = true
              /\ (In App.opt_e keys \/ In App.opt_y keys)))
       (App.action_loop h respond ar function_schemas command keys).
Proof.
  intros w.
  destruct (loop_any_keys h respond ar function_schemas command keys w)
    as (evs & Hw & _ & _ & Hcmd).
  exists evs. rewrite Hw. cbn [log storage confirms texts trace].
  repeat split; try reflexivity. exact Hcmd.
Qed.

(** ** What [main] may do *)

Section MainEffects.

Variable h : host.
Variable respond : list event -> request -> res str.
Variable ar : App.args.
Variable keys : list App.choice.

(** After the editor: at most the command of the loop. *)
Let loop_part (r : res unit) (evs : list event) : Prop :=
  commands_of evs = []
  \/ exists (text : str) (tr : list event) (req : request),
       respond tr req = Ret text
       /\ commands_of evs = [Utils.full_command h text]
       /\ r = Ret tt /\ App.shell ar = true /\ App.interaction ar = true
       /\ (In App.opt_e keys \/ In App.opt_y keys).

(** The whole run: the editor's command, if any, then that. *)
Let main_part (r : res unit) (evs : list event) : Prop :=
  exists E L : list str,
    commands_of evs = E ++ L
    /\ (E = [] \/ (App.editor ar = true /\ E = commands_of (editor_events h ar)))
    /\ (L = []
        \/ exists (text : str) (tr : list event) (req : request),
             respond tr req = Ret text
             /\ L = [Utils.full_command h text]
             /\ r = Ret tt /\ App.shell ar = true /\ App.interaction ar = true
             /\ (In App.opt_e keys \/ In App.opt_y keys)).

Lemma adds_request_then_loop (req : request) (function_schemas : option (list str)) :
  adds loop_part
       (full_completion <- App.handle respond req ;;
        App.action_loop h respond ar function_schemas full_completion keys).
Proof.
  eapply adds_bind.
  - apply adds_handle.
  - intros fc. apply adds_action_loop.
  - intros fc e1 r e2 HP Hloop. cbv beta in HP, Hloop. destruct HP as [He Hfc]. subst e1.
    cbn [app commands_of].
    destruct Hloop as [Hc|(Hc & Hr & Hs & Hi & Hin)]; [left; exact Hc|].
    right. destruct (Hfc fc eq_refl) as [tr Htr]. exists fc, tr, req. auto 10.
  - intros x e1 HP. cbv beta in HP. destruct HP as [He _]. subst e1. left. reflexivity.
Qed.

Lemma adds_after_role (role_class : SystemRole) (prompt2 : str) :
  adds loop_part
       ((match App.repl ar with
         | Some id =>
           if truthy id
           then App.handle respond
                  (App.mk_request (ReplHandler id) role_class ar prompt2 (schemas_sent h ar))
                ;;; ret tt
           else ret tt
         | None => ret tt
         end) ;;;
        full_completion <-
          (match App.chat ar with
           | Some id =>
             if truthy id
             then App.handle respond
                    (App.mk_request (ChatHandler id) role_class ar prompt2 (schemas_sent h ar))
             else App.handle respond
                    (App.mk_request DefaultHandler role_class ar prompt2 (schemas_sent h ar))
           | None => App.handle respond
                       (App.mk_request DefaultHandler role_class ar prompt2 (schemas_sent h ar))
           end) ;;
        App.action_loop h respond ar (schemas_sent h ar) full_completion keys).
Proof.
  eapply adds_bind with (P := fun _ evs => commands_of evs = []) (Q := fun _ => loop_part).
  - destruct (App.repl ar) as [id|]; [destruct (truthy id)|].
    + eapply adds_bind with (Q := fun _ _ evs => evs = []).
      * apply adds_handle.
      * intros u. apply adds_ret. reflexivity.
      * intros u e1 r e2 HP HQ. cbv beta in HP, HQ. destruct HP as [He _]. subst e1 e2.
        reflexivity.
      * intros x e1 HP. cbv beta in HP. destruct HP as [He _]. subst e1. reflexivity.
    + apply adds_ret. reflexivity.
    + apply adds_ret. reflexivity.
  - intros u. destruct (App.chat ar) as [id|]; [destruct (truthy id)|];
      apply adds_request_then_loop.
  - intros u e1 r e2 H1 H2. unfold loop_part in *. rewrite commands_of_app, H1. exact H2.
  - intros x e1 H1. left. exact H1.
Qed.

Lemma adds_main : adds main_part (App.main h respond ar keys).
Proof.
  unfold App.main.
  eapply adds_bind with (P := fun r evs => evs = [] /\ exists p1, r = Ret p1)
                        (Q := fun _ => main_part).
  - destruct (negb (stdin_isatty h)).
    + apply adds_read_stdin.
    + apply adds_ret. eauto.
  - intros prompt1.
    assert (forall x, adds main_part (raise (A := unit) x)) as Hraise.
    { intros x. apply adds_raise. exists [], []. auto. }
    destruct (1 <? _)%nat; [apply Hraise|].
    destruct (truthy_opt (App.chat ar) && truthy_opt (App.repl ar)); [apply Hraise|].
    destruct (App.editor ar && negb (stdin_isatty h)); [apply Hraise|].
    eapply adds_bind
      with (P := fun _ evs => evs = []
                              \/ (App.editor ar = true
                                  /\ commands_of evs = commands_of (editor_events h ar)))
           (Q := fun _ => loop_part).
    + unfold editor_events. destruct (App.editor ar).
      * eapply adds_weaken; [apply adds_get_edited_prompt|].
        intros r evs ->. right. split; reflexivity.
      * apply adds_ret. left. reflexivity.
    + intros prompt2.
      eapply adds_bind with (P := fun _ evs => evs = []) (Q := fun _ => loop_part).
      * destruct (App.role_opt ar) as [r|]; [destruct (truthy r)|];
          try apply adds_get;
          unfold Role.check_get;
          destruct (App.shell ar), (App.describe_shell ar), (App.code ar); apply adds_get.
      * intros role_class. apply adds_after_role.
      * intros u e1 r e2 H1 H2. cbv beta in H1. subst e1. exact H2.
      * intros x e1 H1. cbv beta in H1. subst e1. left. reflexivity.
    + intros u e1 r e2 H1 H2. unfold main_part, loop_part in *. cbv beta in H1.
      exists (commands_of e1), (commands_of e2). split; [apply commands_of_app|].
      split; [destruct H1 as [->|[He ->]]; [left; reflexivity|right; auto]|].
      destruct H2 as [->|H2]; [left; reflexivity|]. right.
      destruct H2 as (text & tr & req & ? & -> & ?). exists text, tr, req. auto 10.
    + intros x e1 H1. unfold main_part. cbv beta in H1.
      exists (commands_of e1), []. rewrite app_nil_r.
      split; [reflexivity|]. split; [|left; reflexivity].
      destruct H1 as [->|[He ->]]; [left; reflexivity|right; auto].
  - intros u e1 r e2 H1 H2. cbv beta in H1. destruct H1 as [He _]. subst e1. exact H2.
  - intros x e1 H1. cbv beta in H1. destruct H1 as [_ [p1 Hp]]. discriminate.
Qed.

End MainEffects.

(** X15: the commands [main] gives to [os.system] are, in order, the
    editor's when [--editor] is set, and then at most one more: a text the
    provider returned, run through [run_command], in shell mode with
    interaction on, after an answer e or y, [main] then ending normally. *)
Theorem X15_main_runs_at_most_one_answer (h : host)
    (respond : list event -> request -> res str)
    (ar : App.args) (keys : list App.choice) (w : world) :
  exists (evs : list event) (E L : list str),
    trace (snd (App.main h respond ar keys w)) = trace w ++ evs
    /\ commands_of evs = E ++ L
    /\ (E = [] \/ (App.editor ar = true /\ E = commands_of (editor_events h ar)))
    /\ (L = []
        \/ exists (text : str) (tr : list event) (req : request),
             respond tr req = Ret text
             /\ L = [Utils.full_command h text]
             /\ fst (App.main h respond ar keys w) = Ret tt
             /\ App.shell ar = true /\ App.interaction ar = true
             /\ (In App.opt_e keys \/ In App.opt_y keys)).
Proof.
  destruct (adds_main h respond ar keys w) as (evs & _ & _ & _ & Htr & E & L & Hc & HE & HL).
  exists evs, E, L. auto.
Qed.

Lemma checks_pass_true (h : host) (ar : App.args) :
  checks_pass h ar = true ->
  (1 <? App.bool_to_nat (App.shell ar) + App.bool_to_nat (App.describe_shell ar)
        + App.bool_to_nat (App.code ar))%nat = false
  /\ truthy_opt (App.chat ar) && truthy_opt (App.repl ar) = false
  /\ App.editor ar && negb (stdin_isatty h) = false.
Proof.
  unfold checks_pass. rewrite !andb_true_iff, !negb_true_iff. tauto.
Qed.

(** [main] once the checks have passed: the stages that remain, on the
    world standard input left. *)
Lemma main_checks_passed (h : host) (respond : list event -> request -> res str)
    (ar : App.args) (keys : list App.choice) (w : world) :
  checks_pass h ar = true ->
  App.main h respond ar keys w
  = (prompt2 <- (if App.editor ar then Utils.get_edited_prompt h
                 else ret (prompt_sent h ar w)) ;;
     role_class <- Role.get (role_asked ar) ;;
     (match App.repl ar with
      | Some id =>
        if truthy id
        then App.handle respond
               (App.mk_request (ReplHandler id) role_class ar prompt2 (schemas_sent h ar))
             ;;; ret tt
        else ret tt
      | None => ret tt
      end) ;;;
     full_completion <-
       App.handle respond
         (App.mk_request (main_handler ar) role_class ar prompt2 (schemas_sent h ar)) ;;
     App.action_loop h respond ar (schemas_sent h ar) full_completion keys)
    (after_stdin h ar w).
Proof.
  intros Hok. destruct (checks_pass_true h ar Hok) as (H1 & H2 & H3).
  unfold App.main. unfold bind at 1.
  assert ((if negb (stdin_isatty h) then App.read_stdin (App.prompt ar)
           else ret (App.prompt ar)) w
          = (Ret (if stdin_isatty h then App.prompt ar
                  else App.compose_prompt
                         (fst (App.read_until_sentinel [] (iter_lines (pipe w))))
                         (App.prompt ar)),
             after_stdin h ar w)) as ->.
  { unfold after_stdin. destruct (stdin_isatty h); [reflexivity|].
    cbn [negb]. unfold App.read_stdin.
    destruct (App.read_until_sentinel [] (iter_lines (pipe w))); reflexivity. }
  rewrite H1, H2, H3.
  unfold prompt_sent, role_asked, default_of, main_handler, schemas_sent, Role.check_get.
  destruct (App.editor ar);
    (destruct (App.role_opt ar) as [r|]; [destruct (truthy r)|]);
    (destruct (App.chat ar) as [id|]; [destruct (truthy id)|]);
    destruct (App.shell ar), (App.describe_shell ar), (App.code ar);
    reflexivity.
Qed.

Lemma after_stdin_keeps (h : host) (ar : App.args) (w : world) :
  storage (after_stdin h ar w) = storage w /\ trace (after_stdin h ar w) = trace w.
Proof.
  unfold after_stdin. destruct (stdin_isatty h); [auto|].
  unfold App.read_stdin.
  destruct (App.read_until_sentinel [] (iter_lines (pipe w))); auto.
Qed.

(** X16: when one of the three checks on the arguments fails, [main]
    raises the usage error of the first check that fails, having requested
    and run nothing; piped standard input has by then been read up to the
    sentinel. *)
Theorem X16_usage_errors_come_before_any_effect (h : host)
    (respond : list event -> request -> res str)
    (ar : App.args) (keys : list App.choice) (w : world) :
  checks_pass h ar = false ->
  App.main h respond ar keys w
  = (Raise (BadArgumentUsage
              (if (1 <? App.bool_to_nat (App.shell ar)
                        + App.bool_to_nat (App.describe_shell ar)
                        + App.bool_to_nat (App.code ar))%nat
               then py "一次只能使用 --shell、--describe-shell 和 --code 选项中的一个。"
               else if truthy_opt (App.chat ar) && truthy_opt (App.repl ar)
               then py "--chat 和 --repl 选项不能同时使用。"
               else py "--editor 选项不能与标准输入一起使用。")),
     after_stdin h ar w)
  /\ trace (after_stdin h ar w) = trace w
  /\ storage (after_stdin h ar w) = storage w.
Proof.
  intros Hbad. split; [|split; apply after_stdin_keeps].
  unfold App.main. unfold bind at 1.
  assert (exists p1, (if negb (stdin_isatty h) then App.read_stdin (App.prompt ar)
                      else ret (App.prompt ar)) w = (Ret p1, after_stdin h ar w))
    as [p1 ->].
  { unfold after_stdin. destruct (stdin_isatty h); [eexists; reflexivity|].
    cbn [negb]. unfold App.read_stdin.
    destruct (App.read_until_sentinel [] (iter_lines (pipe w))); eexists; reflexivity. }
  unfold checks_pass in Hbad.
  destruct (1 <? _)%nat; [reflexivity|].
  destruct (truthy_opt (App.chat ar) && truthy_opt (App.repl ar)); [reflexivity|].
  destruct (App.editor ar && negb (stdin_isatty h)); [reflexivity|discriminate].
Qed.

Lemma X16_usage_errors_come_before_any_effect_witness :
  fst (App.main Sample.linux_piped Sample.echo_ok Sample.editor_args [] Sample.empty_world)
  = Raise (BadArgumentUsage (py "--editor 选项不能与标准输入一起使用。")).
Proof.
  rewrite (proj1 (X16_usage_errors_come_before_any_effect Sample.linux_piped Sample.echo_ok
                    Sample.editor_args [] Sample.empty_world eq_refl)).
  reflexivity.
Defined.

Lemma editor_stage (h : host) (ar : App.args) (w w1 : world) :
  (App.editor ar = true -> truthy (edited_text h) = true) ->
  (if App.editor ar then Utils.get_edited_prompt h else ret (prompt_sent h ar w)) w1
  = (Ret (prompt_sent h ar w), log w1 (editor_events h ar)).
Proof.
  intros Hed. unfold prompt_sent, editor_events. destruct (App.editor ar).
  - unfold Utils.get_edited_prompt, bind. rewrite emit_log, (Hed eq_refl). reflexivity.
  - rewrite log_nil. reflexivity.
Qed.

(** X17: when the checks pass, the editor (if asked for) has come back
    with some text, and the role to use, the one named by [--role] or else
    the built-in the flags select, is a plain file name with no record,
    [main] ends with the not-found error for that name before any request is
    sent; only the editor has run, if it was asked for. *)
Theorem X17_main_fails_on_missing_role (h : host)
    (respond : list event -> request -> res str)
    (ar : App.args) (keys : list App.choice) (w : world) :
  checks_pass h ar = true ->
  (App.editor ar = true -> truthy (edited_text h) = true) ->
  FileName.plain (role_asked ar) = true ->
  storage w !! Role._file_path (role_asked ar) = None ->
  App.main h respond ar keys w
  = (Raise (BadArgumentUsage
              (py "Role " ++ dquote ++ role_asked ar ++ dquote ++ py " not found.")),
     log (after_stdin h ar w) (editor_events h ar)).
Proof.
  intros Hok Hed _ Hnone. rewrite (main_checks_passed h respond ar keys w Hok).
  unfold bind at 1. rewrite (editor_stage h ar w _ Hed).
  unfold bind at 1. unfold Role.get.
  rewrite storage_log, (proj1 (after_stdin_keeps h ar w)), Hnone. reflexivity.
Qed.

Lemma X17_main_fails_on_missing_role_witness :
  fst (App.main Sample.linux Sample.echo_ok Sample.plain_args [] Sample.empty_world)
  = Raise (BadArgumentUsage
             (py "Role " ++ dquote ++ role_asked Sample.plain_args ++ dquote
              ++ py " not found.")).
Proof.
  rewrite (X17_main_fails_on_missing_role Sample.linux Sample.echo_ok Sample.plain_args []
             Sample.empty_world eq_refl ltac:(discriminate)
             ltac:(vm_compute; reflexivity) ltac:(apply lookup_empty)).
  reflexivity.
Defined.



(** X19: with [--editor], when the file comes back empty from the editor
    [main] raises [BadParameter]; the editor was run, no role was looked
    up, no request was sent. *)
Theorem X19_main_empty_edit (h : host) (respond : list event -> request -> res str)
    (ar : App.args) (keys : list App.choice) (w : world) :
  checks_pass h ar = true ->
  App.editor ar = true ->
  edited_text h = [] ->
  App.main h respond ar keys w
  = (Raise (BadParameter (py "无法从 $EDITOR 获取有效的 PROMPT。")),
     log w [System (getenv h (py "EDITOR") (py "vim") ++ py " " ++ tmp_file h)]).
Proof.
  intros Hok Hed Hempty. rewrite (main_checks_passed h respond ar keys w Hok).
  destruct (checks_pass_true h ar Hok) as (_ & _ & H3).
  rewrite Hed in H3. cbn [andb] in H3. apply negb_false_iff in H3.
  unfold after_stdin. rewrite H3, Hed.
  unfold bind at 1. unfold Utils.get_edited_prompt, bind. rewrite emit_log, Hempty.
  reflexivity.
Qed.

Lemma X19_main_empty_edit_witness :
  fst (App.main Sample.linux Sample.echo_ok Sample.editor_args [] Sample.started)
  = Raise (BadParameter (py "无法从 $EDITOR 获取有效的 PROMPT。")).
Proof.
  rewrite (X19_main_empty_edit Sample.linux Sample.echo_ok Sample.editor_args []
             Sample.started eq_refl eq_refl eq_refl).
  reflexivity.
Defined.

(** X20: with [--repl], once the REPL handler has returned, [main] goes on
    as for a plain question: it sends the same prompt again through the
    default handler, under the same role, and enters the loop with the
    answer. *)
Theorem X20_main_asks_again_after_repl (h : host)
    (respond : list event -> request -> res str)
    (ar : App.args) (keys : list App.choice) (w : world)
    (record : SystemRole) (id text : str) :
  checks_pass h ar = true ->
  (App.editor ar = true -> truthy (edited_text h) = true) ->
  storage w !! Role._file_path (role_asked ar) = Some record ->
  App.repl ar = Some id ->
  truthy id = true ->
  respond (trace w ++ editor_events h ar)
          (App.mk_request (ReplHandler id) record ar (prompt_sent h ar w) (schemas_sent h ar))
  = Ret text ->
  App.main h respond ar keys w
  = (full_completion <-
       App.handle respond
         (App.mk_request DefaultHandler record ar (prompt_sent h ar w) (schemas_sent h ar)) ;;
     App.action_loop h respond ar (schemas_sent h ar) full_completion keys)
    (log (after_stdin h ar w)
         (editor_events h ar
          ++ [Completion (App.mk_request (ReplHandler id) record ar (prompt_sent h ar w)
                                         (schemas_sent h ar))])).
Proof.
  intros Hok Hed Hrec Hrepl Hid Hresp.
  rewrite (main_checks_passed h respond ar keys w Hok).
  destruct (checks_pass_true h ar Hok) as (_ & H2 & _).
  rewrite Hrepl in H2. cbn [truthy_opt] in H2. rewrite Hid, andb_true_r in H2.
  unfold bind at 1. rewrite (editor_stage h ar w _ Hed).
  unfold bind at 1.
  rewrite (get_present _ record)
    by (rewrite storage_log, (proj1 (after_stdin_keeps h ar w)); exact Hrec).
  rewrite Hrepl, Hid.
  unfold bind at 1. unfold bind at 1. unfold App.handle at 1.
  rewrite emit_log, trace_log, (proj2 (after_stdin_keeps h ar w)), Hresp, log_log.
  unfold ret at 1.
  assert (main_handler ar = DefaultHandler) as ->.
  { unfold main_handler. destruct (App.chat ar) as [c|]; [|reflexivity].
    cbn [truthy_opt] in H2. rewrite H2. reflexivity. }
  reflexivity.
Qed.

Lemma X20_main_asks_again_after_repl_witness :
  requests_of (trace (snd (App.main Sample.linux Sample.echo_ok Sample.repl_args []
                             Sample.started)))
  = [App.mk_request (ReplHandler (py "temp")) (default_record Role.DEFAULT) Sample.repl_args
       (py "Q") None;
     App.mk_request DefaultHandler (default_record Role.DEFAULT) Sample.repl_args
       (py "Q") None].
Proof.
  rewrite (X20_main_asks_again_after_repl Sample.linux Sample.echo_ok Sample.repl_args []
             Sample.started (default_record Role.DEFAULT) (py "temp") (py "ok")
             eq_refl ltac:(discriminate) ltac:(vm_compute; reflexivity)
             eq_refl eq_refl eq_refl).
  vm_compute. reflexivity.
Defined.

(** * Piped input without a sentinel *)

Lemma line_in_text (s line : str) :
  In line (iter_lines s) -> exists pre post : str, s = pre ++ line ++ post.
Proof.
  intros Hin. apply in_split in Hin as (l1 & l2 & E).
  exists (concat l1), (concat l2).
  rewrite <- (iter_lines_concat s), E, concat_app. reflexivity.
Qed.

Lemma read_until_sentinel_all (acc : str) (lines : list str) :
  (forall line, In line lines -> contains App.SENTINEL line = false) ->
  App.read_until_sentinel acc lines = (acc ++ concat lines, []).
Proof.
  revert acc. induction lines as [|line rest IH]; intros acc H.
  - cbn [App.read_until_sentinel concat]. rewrite app_nil_r. reflexivity.
  - cbn [App.read_until_sentinel concat]. rewrite (H line (in_eq _ _)).
    rewrite IH by (intros l Hl; apply H; right; exact Hl).
    rewrite app_assoc. reflexivity.
Qed.

(** X21: when the sentinel occurs nowhere in the piped text, the whole
    text is taken, unchanged, as the piped block of the prompt, and the pipe
    is left empty. *)
Theorem X21_no_sentinel_takes_all (prompt_arg : str) (w : world) :
  contains App.SENTINEL (pipe w) = false ->
  App.read_stdin prompt_arg w
  = (Ret (App.compose_prompt (pipe w) prompt_arg),
     {| storage := storage w; confirms := confirms w; texts := texts w;
        pipe := []; trace := trace w |}).
Proof.
  intros Hno. unfold App.read_stdin.
  rewrite read_until_sentinel_all.
  - cbn [app concat]. rewrite iter_lines_concat. reflexivity.
  - intros line Hin. destruct (contains App.SENTINEL line) eqn:E; [|reflexivity].
    apply line_in_text in Hin as (pre & post & Hs).
    apply contains_iff in E as (a & b & ->).
    assert (contains App.SENTINEL (pipe w) = true) as Hyes.
    { apply contains_iff. exists (pre ++ a), (b ++ post).
      rewrite Hs, <- !app_assoc. reflexivity. }
    congruence.
Qed.

Lemma X21_no_sentinel_takes_all_witness :
  fst (App.read_stdin []
         {| storage := ∅; confirms := []; texts := [];
            pipe := py "only this" ++ [10]; trace := [] |})
  = Ret (py "only this" ++ [10]).
Proof.
  rewrite (X21_no_sentinel_takes_all []
             {| storage := ∅; confirms := []; texts := [];
                pipe := py "only this" ++ [10]; trace := [] |}
             ltac:(vm_compute; reflexivity)).
  reflexivity.
Defined.

(** * Listing the roles *)

Lemma insert_by_perm {A : Type} (key : A -> Z) (x : A) (l : list A) :
  Permutation (Listing.insert_by key x l) (x :: l).
Proof.
  induction l as [|y l IH]; cbn [Listing.insert_by]; [reflexivity|].
  destruct (key x <=? key y)%Z; [reflexivity|].
  rewrite IH. apply perm_swap.
Qed.

Lemma sorted_perm {A : Type} (key : A -> Z) (l : list A) :
  Permutation (Listing.sorted key l) l.
Proof.
  unfold Listing.sorted. induction l as [|x l IH]; cbn [foldr]; [reflexivity|].
  rewrite insert_by_perm, IH. reflexivity.
Qed.

Lemma insert_by_sorted {A : Type} (key : A -> Z) (x : A) (l : list A) :
  StronglySorted (fun a b => (key a <= key b)%Z) l ->
  StronglySorted (fun a b => (key a <= key b)%Z) (Listing.insert_by key x l).
Proof.
  induction 1 as [|y l Hl IH Hy]; cbn [Listing.insert_by].
  - constructor; constructor.
  - destruct (key x <=? key y)%Z eqn:E.
    + apply Z.leb_le in E. constructor; [constructor; assumption|].
      constructor; [exact E|].
      eapply Forall_impl; [exact Hy|]. cbv beta. intros a Ha. lia.
    + apply Z.leb_gt in E. constructor; [exact IH|].
      rewrite insert_by_perm. constructor; [lia|exact Hy].
Qed.

Lemma sorted_sorted {A : Type} (key : A -> Z) (l : list A) :
  StronglySorted (fun a b => (key a <= key b)%Z) (Listing.sorted key l).
Proof.
  unfold Listing.sorted. induction l as [|x l IH]; cbn [foldr]; [constructor|].
  apply insert_by_sorted. exact IH.
Qed.

Lemma for_each_echo (paths : list str) (w : world) :
  Role.for_each paths (fun path => emit (Echo path)) w = (Ret tt, log w (map Echo paths)).
Proof.
  revert w. induction paths as [|p paths IH]; intros w; cbn [Role.for_each map].
  - rewrite log_nil. reflexivity.
  - unfold bind. rewrite emit_log, IH, log_log. reflexivity.
Qed.

(** X22: asked to list, [list] echoes every path of the role directory
    once, the one modified longest ago first, changes nothing else and
    leaves with [Exit]; a directory that does not exist gives no line; not
    asked, it does nothing and returns. *)
Theorem X22_list_echoes_oldest_first (d : Listing.directory) (w : world) :
  exists paths : list str,
    Listing.list d true w = (Raise Exit, log w (map Echo paths))
    /\ Permutation paths (if Listing.dir_exists d then Listing.glob d else [])
    /\ StronglySorted (fun a b => (Listing.st_mtime d a <= Listing.st_mtime d b)%Z) paths
    /\ Listing.list d false w = (Ret tt, w).
Proof.
  unfold Listing.list, Listing.flag_callback. cbn [negb].
  destruct (Listing.dir_exists d).
  - exists (Listing.sorted (Listing.st_mtime d) (Listing.glob d)).
    cbn [negb]. unfold bind. rewrite for_each_echo.
    split; [reflexivity|]. split; [apply sorted_perm|].
    split; [apply sorted_sorted|reflexivity].
  - exists []. cbn [negb map]. rewrite log_nil.
    split; [reflexivity|]. split; [reflexivity|]. split; [constructor|reflexivity].
Qed.

(** Entries with the same time keep the order in which they were found. *)
Example sorted_is_stable :
  Listing.sorted (fun p : str => if str_eqb p (py "a") then 2%Z else 1%Z)
                 [py "a"; py "b"; py "c"; py "d"]
  = [py "b"; py "c"; py "d"; py "a"].
Proof. reflexivity. Qed.

(** * Installing the shell integration *)

(** X23: asked to install, [install_shell_integration] looks for zsh in
    SHELL first, then for bash; it appends the matching script to that
    shell's start-up file, keeping what the file held and leaving the other
    file alone, and exits; for any other shell it raises the usage error
    with nothing written or echoed.  Nothing guards against a second run:
    the script is appended once more. *)
Theorem X23_install_appends_to_one_file (zsh_script bash_script : str) (h : host)
    (st : Integration.home) :
  let run := Integration.install_shell_integration zsh_script bash_script h true in
  (contains (py "zsh") (getenv h (py "SHELL") []) = true ->
   fst (run st) = Integration.Exited
   /\ Integration.zshrc (snd (run st)) = Integration.zshrc st ++ zsh_script
   /\ Integration.bashrc (snd (run st)) = Integration.bashrc st
   /\ Integration.zshrc (snd (run (snd (run st))))
      = Integration.zshrc st ++ zsh_script ++ zsh_script)
  /\ (contains (py "zsh") (getenv h (py "SHELL") []) = false ->
      contains (py "bash") (getenv h (py "SHELL") []) = true ->
      fst (run st) = Integration.Exited
      /\ Integration.bashrc (snd (run st)) = Integration.bashrc st ++ bash_script
      /\ Integration.zshrc (snd (run st)) = Integration.zshrc st
      /\ Integration.bashrc (snd (run (snd (run st))))
         = Integration.bashrc st ++ bash_script ++ bash_script)
  /\ (contains (py "zsh") (getenv h (py "SHELL") []) = false ->
      contains (py "bash") (getenv h (py "SHELL") []) = false ->
      run st
      = (Integration.UsageError
           (py "ShellGPT integrations only available for ZSH and Bash."), st)).
Proof.
  cbv zeta. unfold Integration.install_shell_integration. cbn [negb].
  split; [|split].
  - intros Hz. rewrite Hz. cbn [fst snd Integration.zshrc Integration.bashrc].
    rewrite <- app_assoc. auto.
  - intros Hz Hb. rewrite Hz, Hb. cbn [fst snd Integration.zshrc Integration.bashrc].
    rewrite <- app_assoc. auto.
  - intros Hz Hb. rewrite Hz, Hb. reflexivity.
Qed.

Lemma X23_install_appends_to_one_file_witness :
  Integration.bashrc
    (snd (Integration.install_shell_integration (py "# zsh hook") (py "# bash hook")
            Sample.linux true
            {| Integration.zshrc := []; Integration.bashrc := py "alias l=ls";
               Integration.echoed := [] |}))
  = py "alias l=ls" ++ py "# bash hook".
Proof.
  apply (proj1 (proj2 (X23_install_appends_to_one_file (py "# zsh hook") (py "# bash hook")
                         Sample.linux
                         {| Integration.zshrc := []; Integration.bashrc := py "alias l=ls";
                            Integration.echoed := [] |}))).
  - vm_compute. reflexivity.
  - vm_compute. reflexivity.
Defined.

(** * The command line as the shell reads it *)

Lemma words_bare_safe_blank (s cur rest : str) :
  forallb Utils.is_safe s = true ->
  Sh.words_from Sh.Bare (Some cur) (s ++ 32 :: rest)
  = option_map (cons (cur ++ s)) (Sh.words_from Sh.Bare None rest).
Proof.
  revert cur. induction s as [|c s IH]; intros cur H.
  - rewrite app_nil_r. reflexivity.
  - cbn [forallb] in H. apply andb_true_iff in H as [Hc Hs].
    destruct (safe_is_plain c Hc) as (Hb & Hq & Hd & Hm).
    cbn [app Sh.words_from Sh.so_far]. rewrite Hb, Hq, Hd, Hm.
    rewrite (IH _ Hs), <- app_assoc. reflexivity.
Qed.

(** X24: off Windows, when the value of SHELL (or /bin/sh in its place) is
    a plain word of letters, digits and [_@%+=:,./-], a POSIX shell splits
    the line that [run_command] builds into exactly three words: that
    shell, -c, and the command text itself, whatever characters the command
    holds. *)
Theorem X24_command_is_one_argument (h : host) (command : str) :
  platform_system h <> py "Windows" ->
  getenv h (py "SHELL") (py "/bin/sh") <> [] ->
  forallb Utils.is_safe (getenv h (py "SHELL") (py "/bin/sh")) = true ->
  Sh.words (Utils.full_command h command)
  = Some [getenv h (py "SHELL") (py "/bin/sh"); py "-c"; command].
Proof.
  intros Hp Hne Hsafe. unfold Utils.full_command, str_eqb.
  rewrite bool_decide_eq_false_2 by exact Hp.
  destruct (getenv h (py "SHELL") (py "/bin/sh")) as [|c s]; [congruence|].
  cbn [forallb] in Hsafe. apply andb_true_iff in Hsafe as [Hc Hs].
  destruct (safe_is_plain c Hc) as (Hb & Hq & Hd & Hm).
  change (py " -c ") with [32; 45; 99; 32].
  change (py "-c") with [45; 99].
  unfold Sh.words. cbn [app Sh.words_from Sh.so_far]. rewrite Hb, Hq, Hd, Hm.
  rewrite (words_bare_safe_blank s [c] _ Hs).
  cbn [Sh.words_from Sh.so_far Sh.is_blank Sh.is_meta N.eqb Pos.eqb orb app].
  pose proof (quote_is_one_word command) as Hq1. unfold Sh.words in Hq1.
  rewrite Hq1. reflexivity.
Qed.

Lemma X24_command_is_one_argument_witness :
  Sh.words (Utils.full_command Sample.linux (py "rm -rf 'my dir'; echo $HOME"))
  = Some [py "/bin/bash"; py "-c"; py "rm -rf 'my dir'; echo $HOME"].
Proof.
  apply (X24_command_is_one_argument Sample.linux (py "rm -rf 'my dir'; echo $HOME")).
  - vm_compute. discriminate.
  - vm_compute. discriminate.
  - vm_compute. reflexivity.
Defined.

(** * The two detectors *)

Lemma lstrip_head (s : str) (c : N) (t : str) :
  lstrip s = c :: t -> is_space c = false.
Proof.
  induction s as [|d s IH]; cbn [lstrip]; [discriminate|].
  destruct (is_space d) eqn:E; [exact IH|].
  intros [= <- <-]. exact E.
Qed.

Lemma lstrip_suffix (s : str) : exists pre : str, s = pre ++ lstrip s.
Proof.
  induction s as [|d s [pre IH]]; cbn [lstrip]; [exists []; reflexivity|].
  destruct (is_space d).
  - exists (d :: pre). cbn [app]. f_equal. exact IH.
  - exists []. reflexivity.
Qed.

Lemma strip_first (s : str) (c : N) (t : str) :
  strip s = c :: t -> is_space c = false.
Proof.
  unfold strip. intros H.
  apply (f_equal (@rev N)) in H. rewrite rev_involutive in H. cbn [rev] in H.
  destruct (lstrip_suffix (rev (lstrip s))) as [pre Hpre].
  rewrite H, app_assoc in Hpre.
  apply (f_equal (@rev N)) in Hpre. rewrite rev_involutive, rev_app_distr in Hpre.
  cbn [rev app] in Hpre. exact (lstrip_head _ _ _ Hpre).
Qed.

Lemma strip_last (s t : str) (c : N) :
  strip s = t ++ [c] -> is_space c = false.
Proof.
  unfold strip. intros H.
  apply (f_equal (@rev N)) in H. rewrite rev_involutive, rev_app_distr in H.
  cbn [rev app] in H. exact (lstrip_head _ _ _ H).
Qed.

(** X25: [get_role_name] gives no name exactly for an empty message and
    for one whose first line lacks "You are"; a name it gives comes from a
    first line that contains "You are " and has no white space at either
    end. *)
Theorem X25_get_role_name_results (msg : str) :
  (Role.get_role_name msg = Ret None
   <-> msg = []
       \/ exists line0, splitlines msg !! 0%nat = Some line0
                        /\ contains (py "You are") line0 = false)
  /\ (forall n : str,
        Role.get_role_name msg = Ret (Some n) ->
        (exists line0, splitlines msg !! 0%nat = Some line0
                       /\ contains (py "You are ") line0 = true)
        /\ (forall c t, n = c :: t -> is_space c = false)
        /\ (forall t c, n = t ++ [c] -> is_space c = false)).
Proof.
  unfold Role.get_role_name. destruct msg as [|c msg].
  - cbn [truthy negb]. split; [split; auto|]. intros n. discriminate.
  - cbn [truthy negb].
    destruct (splitlines_head (c :: msg)) as (l & ls & ->); [discriminate|].
    cbn [lookup list_lookup].
    pose proof (split_second (py "You are ") l sep_you_are_nonempty) as Hs.
    destruct (contains (py "You are") l) eqn:E1.
    + destruct (split (py "You are ") l !! 1%nat) as [rest|] eqn:E2.
      * split.
        -- split; [discriminate|].
           intros [Hnil|(line0 & [= <-] & Hno)]; [discriminate|congruence].
        -- intros n [= <-]. split; [|split].
           ++ exists l. split; [reflexivity|]. apply Hs. eauto.
           ++ apply strip_first.
           ++ apply strip_last.
      * split; [|intros n; discriminate].
        split; [discriminate|].
        intros [Hnil|(line0 & [= <-] & Hno)]; [discriminate|congruence].
    + split; [|intros n; discriminate].
      split; [|reflexivity]. intros _. right. exists l. auto.
Qed.

Lemma X25_get_role_name_results_witness :
  (exists line0, splitlines (py "You are  Shakespeare ") !! 0%nat = Some line0
                 /\ contains (py "You are ") line0 = true)
  /\ Role.get_role_name (py "You are  Shakespeare ") = Ret (Some (py "Shakespeare")).
Proof.
  split; [|vm_compute; reflexivity].
  apply (proj2 (X25_get_role_name_results (py "You are  Shakespeare ")) (py "Shakespeare")).
  vm_compute. reflexivity.
Defined.

(** X26: [same_role] looks for "You are " and the name anywhere in the
    message, so it answers false on an empty message, and a role is
    recognised in every message in which a role whose name begins with its
    own is recognised. *)
Theorem X26_same_role_accepts_longer_names (n more body1 body2 msg : str) :
  Role.same_role {| name := n; role := body1 |} [] = false
  /\ (Role.same_role {| name := n ++ more; role := body2 |} msg = true ->
      Role.same_role {| name := n; role := body1 |} msg = true).
Proof.
  split; [reflexivity|].
  unfold Role.same_role. cbn [name].
  destruct (negb (truthy msg)); [discriminate|].
  destruct (contains (py "You are " ++ n ++ more) msg) eqn:E; [|discriminate].
  intros _. rewrite app_assoc in E. apply contains_prefix in E. rewrite E. reflexivity.
Qed.

Lemma X26_same_role_accepts_longer_names_witness :
  Role.same_role {| name := py "Shell"; role := [] |}
                 (py "You are ShellGPT" ++ [10] ++ py "be brief") = true.
Proof.
  apply (proj2 (X26_same_role_accepts_longer_names (py "Shell") (py "GPT") [] []
                  (py "You are ShellGPT" ++ [10] ++ py "be brief"))).
  vm_compute. reflexivity.
Defined.
